(** * History chatbot: session-scoped conversation state

    A shallow embedding of [langchain_app.py] (the command-line loop) and
    [streamlit_app.py] (the browser chat), followed by the properties of the
    session store, of prompt assembly and of one question/answer exchange.

    Python objects with identity (the [InMemoryChatMessageHistory] instances)
    live in a heap addressed by natural numbers; the session dictionaries hold
    addresses, so that two lookups of one session id can be compared as
    references and not only by contents.  The hosted model is an oracle that
    sees the calls made so far and the current call, and answers with a reply
    text or an exception. *)

From Stdlib Require Import Ascii QArith Lqa.
From stdpp Require Import gmap strings list fin_maps.

(** ** Messages, calls, exceptions *)

(** The message classes of langchain-core that this program creates:
    [SystemMessage], [HumanMessage] (the user) and [AIMessage] (the
    assistant). *)
Inductive role := system | human | ai.

Record message := Message { msg_role : role; msg_content : string }.

#[global] Instance role_eq_dec : EqDecision role.
Proof. solve_decision. Defined.

#[global] Instance message_eq_dec : EqDecision message.
Proof. solve_decision. Defined.

(** One request to the hosted model: the arguments of the
    [ChatGoogleGenerativeAI] constructor and the formatted prompt. *)
Record call := Call {
  call_model_name : string;
  call_temperature : Q;
  call_messages : list message
}.

(** The exceptions this program meets.  All of them derive from Python's
    [Exception], so [except Exception] catches each.  [KeyboardInterrupt] and
    [SystemExit], which it does not catch, come from outside the program (the
    user, the interpreter); a run is followed as long as none of them
    occurs. *)
Inductive exn :=
  | KeyError (key : string)
  | ValueError (msg : string)
  | RuntimeError (msg : string)
  | EOFError
  | ProviderError (msg : string).

(** [repr] of a text, as [str] of a [KeyError] shows its key: in apostrophes,
    or in double quotes when the text has an apostrophe and no double quote;
    the quote in use and the backslash are escaped, tab, newline and return
    are written with their letters and the other control characters in
    hexadecimal.  Bytes of characters outside ASCII are kept. *)
Definition double_quote : ascii := ascii_of_nat 34.

Definition backslash : ascii := ascii_of_nat 92.

Fixpoint occurs (c : ascii) (s : string) : bool :=
  match s with
  | EmptyString => false
  | String d rest => Ascii.eqb c d || occurs c rest
  end.

Definition hex_digit (n : nat) : ascii :=
  if (n <? 10)%nat then ascii_of_nat (48 + n) else ascii_of_nat (87 + n).

Definition repr_char (quote c : ascii) : string :=
  let n := nat_of_ascii c in
  if Ascii.eqb c quote || Ascii.eqb c backslash then String backslash (String c EmptyString)
  else if (n =? 9)%nat then String backslash "t"
  else if (n =? 10)%nat then String backslash "n"
  else if (n =? 13)%nat then String backslash "r"
  else if (n <? 32)%nat || (n =? 127)%nat then
    String backslash
      (String "x" (String (hex_digit (n / 16)) (String (hex_digit (n mod 16)) EmptyString)))
  else String c EmptyString.

Fixpoint repr_body (quote : ascii) (s : string) : string :=
  match s with
  | EmptyString => String quote EmptyString
  | String c rest => repr_char quote c +:+ repr_body quote rest
  end.

Definition repr (s : string) : string :=
  let quote :=
    if occurs "'" s && negb (occurs double_quote s) then double_quote else "'"%char in
  String quote (repr_body quote s).

(** [str(e)] as used by the f-string of the command-line loop: the message
    the exception was made with, and for a [KeyError] the [repr] of its
    key. *)
Definition str_exn (e : exn) : string :=
  match e with
  | KeyError k => repr k
  | ValueError m | RuntimeError m | ProviderError m => m
  | EOFError => ""
  end.

(** The model client: given the calls already made and the current one, a
    reply text or a raised exception. *)
Definition client := list call -> call -> string + exn.

(** ** Program state and the state/exception monad *)

(** [store] is the session dictionary ([session_histories] in the command
    line program, [st.session_state.history_store] in the browser program),
    [heap] the history objects by address, [calls] the requests sent to the
    model and [stdout] the printed lines. *)
Record state := State {
  store : gmap string nat;
  heap : list (list message);
  calls : list call;
  stdout : list string
}.

Inductive result (A : Type) :=
  | Ok (a : A)
  | Raise (e : exn).
Arguments Ok {A} a.
Arguments Raise {A} e.

(** A statement of the program: it may change the state and either returns
    or raises; what was changed before a raise stays changed. *)
Definition M (A : Type) : Type := state -> result A * state.

Definition ret {A} (a : A) : M A := fun st => (Ok a, st).

Definition raise {A} (e : exn) : M A := fun st => (Raise e, st).

Definition bind {A B} (m : M A) (k : A -> M B) : M B :=
  fun st =>
    match m st with
    | (Ok a, st') => k a st'
    | (Raise e, st') => (Raise e, st')
    end.

Notation "x <- m ;; k" := (bind m (fun x => k))
  (at level 100, m at next level, right associativity).
Notation "m ;;; k" := (bind m (fun _ => k))
  (at level 100, right associativity).

(** [try: ... except Exception as e: ...]: every exception of [exn] derives
    from [Exception] and is caught. *)
Definition try_except {A} (m : M A) (handler : exn -> M A) : M A :=
  fun st =>
    match m st with
    | (Ok a, st') => (Ok a, st')
    | (Raise e, st') => handler e st'
    end.

Definition print (line : string) : M unit :=
  fun st => (Ok tt, State (store st) (heap st) (calls st) (stdout st ++ [line])).

(** ** The session dictionary and the history objects *)

(** [sid in d] *)
Definition dict_contains (sid : string) : M bool :=
  fun st => (Ok (bool_decide (is_Some (store st !! sid))), st).

(** [d[sid] = r] *)
Definition dict_set (sid : string) (r : nat) : M unit :=
  fun st => (Ok tt, State (<[sid := r]> (store st)) (heap st) (calls st) (stdout st)).

(** [d[sid]], a [KeyError] when the key is absent. *)
Definition dict_get (sid : string) : M nat :=
  fun st =>
    match store st !! sid with
    | Some r => (Ok r, st)
    | None => (Raise (KeyError sid), st)
    end.

(** [InMemoryChatMessageHistory()]: a new object with no messages, at the
    next free address. *)
Definition InMemoryChatMessageHistory : M nat :=
  fun st => (Ok (length (heap st)),
             State (store st) (heap st ++ [[]]) (calls st) (stdout st)).

(** [hist.messages] *)
Definition messages_of (r : nat) : M (list message) :=
  fun st => (Ok (default [] (heap st !! r)), st).

(** [hist.add_messages(ms)]: the object at [r] is extended in place.  An
    address comes from the dictionary and so points at an object ([wf]
    below); at an address that points nowhere nothing would change. *)
Definition add_messages (r : nat) (ms : list message) : M unit :=
  fun st =>
    (Ok tt,
     State (store st) (<[r := default [] (heap st !! r) ++ ms]> (heap st))
           (calls st) (stdout st)).

(** [get_session_history] of [langchain_app.py]. *)
Definition get_session_history (session_id : string) : M nat :=
  present <- dict_contains session_id ;;
  (if negb present
   then (r <- InMemoryChatMessageHistory ;; dict_set session_id r)
   else ret tt) ;;;
  dict_get session_id.

(** [_get_session_history] of [streamlit_app.py]: the same body over the
    dictionary handed to [build_conversation]. *)
Definition _get_session_history (sid : string) : M nat :=
  present <- dict_contains sid ;;
  (if negb present
   then (r <- InMemoryChatMessageHistory ;; dict_set sid r)
   else ret tt) ;;;
  dict_get sid.

(** The turns recorded for a session: those of the object its id maps to,
    none when the id is unknown. *)
Definition history_of (st : state) (sid : string) : list message :=
  match store st !! sid with
  | Some r => default [] (heap st !! r)
  | None => []
  end.

(** ** Prompt templates *)

(** What an input dictionary of a chain holds: a text or a list of
    messages. *)
Inductive value :=
  | VStr (s : string)
  | VMessages (ms : list message).

(** The text a template field is replaced by.  The [repr] of a message list
    is left out: no template of this program names such a variable. *)
Definition field_text (inputs : gmap string value) (name : string) : option string :=
  match inputs !! name with
  | Some (VStr s) => Some s
  | _ => None
  end.

(** Where the scanner of a format string stands: in plain text, after one
    opening brace, inside a field name, or after one closing brace. *)
Inductive scan := Text | Opened | Field (name : string) | Closed.

(** [template.format] on the input dictionary, for the brace syntax of
    Python format strings: doubled braces are literal braces, a name in
    braces is replaced by the value under that name.  Conversions and format specifications are
    not part of any template here and are not modelled. *)
Fixpoint format_from (inputs : gmap string value) (q : scan) (s : string)
  : result string :=
  match s with
  | EmptyString =>
      match q with
      | Text => Ok EmptyString
      | Opened | Field _ => Raise (ValueError "Single '{' encountered in format string")
      | Closed => Raise (ValueError "Single '}' encountered in format string")
      end
  | String c rest =>
      match q with
      | Text =>
          if Ascii.eqb c "{"%char then format_from inputs Opened rest
          else if Ascii.eqb c "}"%char then format_from inputs Closed rest
          else match format_from inputs Text rest with
               | Ok out => Ok (String c out)
               | Raise e => Raise e
               end
      | Opened =>
          if Ascii.eqb c "{"%char then
            match format_from inputs Text rest with
            | Ok out => Ok (String "{"%char out)
            | Raise e => Raise e
            end
          else if Ascii.eqb c "}"%char then Raise (KeyError "")
          else format_from inputs (Field (String c EmptyString)) rest
      | Field name =>
          if Ascii.eqb c "}"%char then
            match field_text inputs name with
            | Some v =>
                match format_from inputs Text rest with
                | Ok out => Ok (v +:+ out)
                | Raise e => Raise e
                end
            | None => Raise (KeyError name)
            end
          else format_from inputs (Field (name +:+ String c EmptyString)) rest
      | Closed =>
          if Ascii.eqb c "}"%char then
            match format_from inputs Text rest with
            | Ok out => Ok (String "}"%char out)
            | Raise e => Raise e
            end
          else Raise (ValueError "Single '}' encountered in format string")
      end
  end.

Definition format (template : string) (inputs : gmap string value) : result string :=
  format_from inputs Text template.

(** The entries of [ChatPromptTemplate.from_messages]: a pair of a role and
    a format string, or a [MessagesPlaceholder]. *)
Inductive part :=
  | MessageTemplate (r : role) (template : string)
  | MessagesPlaceholder (variable_name : string).

Definition ChatPromptTemplate := list part.

Definition format_part (inputs : gmap string value) (p : part) : result (list message) :=
  match p with
  | MessageTemplate r template =>
      match format template inputs with
      | Ok text => Ok [Message r text]
      | Raise e => Raise e
      end
  | MessagesPlaceholder variable_name =>
      match inputs !! variable_name with
      | Some (VMessages ms) => Ok ms
      | Some (VStr _) =>
          Raise (ValueError ("variable " +:+ variable_name +:+ " should be a list of base messages"))
      | None => Raise (KeyError variable_name)
      end
  end.

(** [prompt.format_messages] on the input dictionary: the parts in order,
    each giving its messages. *)
Fixpoint format_messages (prompt : ChatPromptTemplate) (inputs : gmap string value)
  : result (list message) :=
  match prompt with
  | [] => Ok []
  | p :: rest =>
      match format_part inputs p with
      | Ok ms =>
          match format_messages rest inputs with
          | Ok more => Ok (ms ++ more)
          | Raise e => Raise e
          end
      | Raise e => Raise e
      end
  end.

(** ** The chain and the history wrapper *)

Record ChatGoogleGenerativeAI := ChatModel {
  model_name_of : string;
  temperature_of : Q
}.

(** [prompt | model] *)
Record chain_t := Chain {
  chain_prompt : ChatPromptTemplate;
  chain_model : ChatGoogleGenerativeAI
}.

(** The request goes to the model client; it is logged whether the client
    answers or raises. *)
Definition call_model (llm : client) (c : call) : M message :=
  fun st =>
    let st' := State (store st) (heap st) (calls st ++ [c]) (stdout st) in
    match llm (calls st) c with
    | inl reply => (Ok (Message ai reply), st')
    | inr e => (Raise e, st')
    end.

Definition chain_invoke (llm : client) (ch : chain_t) (inputs : gmap string value)
  : M message :=
  match format_messages (chain_prompt ch) inputs with
  | Ok ms =>
      call_model llm
        (Call (model_name_of (chain_model ch)) (temperature_of (chain_model ch)) ms)
  | Raise e => raise e
  end.

Record RunnableWithMessageHistory := Runnable {
  runnable : chain_t;
  get_history : string -> M nat;
  input_messages_key : string;
  history_messages_key : string
}.

(** [conversation.invoke(input, config={"configurable": {"session_id": sid}})]
    as langchain-core runs it: the history object of the session is fetched
    (and created when new), its messages are put into the input under
    [history_messages_key], the chain runs, and only when the chain has
    returned are the input message and the reply added to the history
    object. *)
Definition invoke (llm : client) (conv : RunnableWithMessageHistory)
    (input : gmap string value) (session_id : string) : M message :=
  hist <- get_history conv session_id ;;
  past <- messages_of hist ;;
  response <- chain_invoke llm (runnable conv)
                (<[history_messages_key conv := VMessages past]> input) ;;
  match input !! input_messages_key conv with
  | Some (VStr question) =>
      add_messages hist [Message human question; response] ;;; ret response
  | Some (VMessages ms) =>
      add_messages hist (ms ++ [response]) ;;; ret response
  | None => raise (KeyError (input_messages_key conv))
  end.

(** [str.lower] on the ASCII letters.  Bytes of other characters are kept:
    no character outside ASCII lowers to one of the letters of "exit". *)
Definition lower_ascii (c : ascii) : ascii :=
  let n := nat_of_ascii c in
  if (65 <=? n)%nat && (n <=? 90)%nat then ascii_of_nat (n + 32) else c.

Fixpoint lower (s : string) : string :=
  match s with
  | EmptyString => EmptyString
  | String c rest => String (lower_ascii c) (lower rest)
  end.

(** Python truthiness of an optional text: [None] and the empty text are
    false. *)
Definition truthy (s : option string) : bool :=
  match s with
  | None | Some EmptyString => false
  | Some _ => true
  end.

(** ** [langchain_app.py] *)

Module langchain_app.

Definition system_template : string :=
  "You are a knowlegeable history teacher. You are given a question and you need to answer it in a way that is easy to understand and engaging for a 10 year old.".

Definition prompt_template : ChatPromptTemplate :=
  [ MessageTemplate system system_template;
    MessagesPlaceholder "history";
    MessageTemplate human "{question}" ].

Definition model : ChatGoogleGenerativeAI := ChatModel "gemini-1.5-flash" (7 # 10).

Definition chain : chain_t := Chain prompt_template model.

Definition conversation : RunnableWithMessageHistory :=
  Runnable chain get_session_history "question" "history".

(** What one pass of the loop body does after the "exit" test. *)
Definition answer (llm : client) (user_input : string) : M unit :=
  try_except
    (response <- invoke llm conversation {[ "question" := VStr user_input ]} "default" ;;
     print ("AI:  " +:+ msg_content response))
    (fun e => print ("Error: " +:+ str_exn e +:+ ", plz check your api key and try again")).

(** The [while True] loop over the lines that standard input delivers;
    [input] raises [EOFError] when they run out. *)
Fixpoint loop (llm : client) (lines : list string) : M unit :=
  match lines with
  | [] => print "Your question: " ;;; raise EOFError
  | user_input :: rest =>
      print "Your question: " ;;;
      if String.eqb (lower user_input) "exit"
      then print "Goodbye!"
      else (answer llm user_input ;;; loop llm rest)
  end.

(** The module from top to bottom; [api_key] is [os.getenv("GOOGLE_API_KEY")]. *)
Definition program (llm : client) (api_key : option string) (lines : list string) : M unit :=
  if negb (truthy api_key)
  then raise (RuntimeError "GOOGLE_API_KEY is not set. In Command Prompt, run: set GOOGLE_API_KEY=your_key or use setx for persistence.")
  else (print "Welcome to the history chatbot! Type 'exit' to end the conversation." ;;;
        loop llm lines).

(** The state the module starts in: [session_histories = {}]. *)
Definition initial : state := State ∅ [] [] [].

End langchain_app.

(** ** [streamlit_app.py] *)

Module streamlit_app.

(** [get_env_api_key]: the environment first; [secrets] is [None] when
    reading [st.secrets] raises, and otherwise what [st.secrets.get]
    returns. *)
Definition get_env_api_key (env : option string) (secrets : option (option string))
  : option string :=
  if truthy env then env
  else match secrets with
       | Some found => found
       | None => None
       end.

Definition system_template : string :=
  "You are a knowlegeable history teacher. You are given a question and you need " +:+
  "to answer it in a way that is easy to understand and engaging for a 10 year old.".

(** [build_conversation].  The dictionary [session_store] is the [store] of
    the state the conversation runs on; [session_id] is not used by the
    body, as in the source. *)
Definition build_conversation (model_name : string) (temperature : Q)
    (session_id : string) : RunnableWithMessageHistory :=
  let prompt :=
    [ MessageTemplate system system_template;
      MessagesPlaceholder "history";
      MessageTemplate human "{question}" ] in
  let model := ChatModel model_name temperature in
  let chain := Chain prompt model in
  Runnable chain _get_session_history "question" "history".

(** An entry of [st.session_state.messages]. *)
Record entry := Entry { entry_role : string; entry_content : string }.

(** [st.session_state]: each of the three keys may be absent. *)
Record session_state := Session {
  session_id : option string;
  history_store : option (gmap string nat);
  messages : option (list entry)
}.

(** The browser session: its [st.session_state], the history objects and the
    requests sent to the model. *)
Record browser := Browser {
  session : session_state;
  objects : list (list message);
  requests : list call
}.

(** What one run of the script reads from its surroundings: the key
    sources, how many steps the temperature thumb was moved, whether the
    "Reset chat" button was pressed, what [st.chat_input] returned, and the
    identifier [uuid4] would produce. *)
Record widgets := Widgets {
  env_key : option string;
  secrets : option (option string);
  slider_steps : nat;
  reset_clicked : bool;
  chat_input : option string;
  uuid4 : string
}.

(** [st.slider(label, min_value)]: the second positional argument of
    Streamlit's slider is its minimum.  For a float minimum the maximum
    defaults to 1.0 and the step to 0.01, and the value starts at the
    minimum; the widget returns no value past its maximum. *)
Definition slider (min_value : Q) (steps : nat) : Q :=
  let max_value := 1%Q in
  let step := (1 # 100)%Q in
  let v := (min_value + inject_Z (Z.of_nat steps) * step)%Q in
  if Qle_bool v max_value then v else max_value.

(** How a run of the script ends when it does not raise. *)
Inductive outcome := Done | Stopped | Rerun.

(** [main], one run of the script. *)
Definition main (llm : client) (w : widgets) (b : browser) : result outcome * browser :=
  let api_key := get_env_api_key (env_key w) (secrets w) in
  if negb (truthy api_key) then (Ok Stopped, b)
  else
    let model_name := "gemini-1.5-flash" in
    let temperature := slider (7 # 10) (slider_steps w) in
    if reset_clicked w
    then (Ok Rerun, Browser (Session None None None) (objects b) (requests b))
    else
      let sid := default (uuid4 w) (session_id (session b)) in
      let history := default ∅ (history_store (session b)) in
      let shown := default [] (messages (session b)) in
      let conversation := build_conversation model_name temperature sid in
      if truthy (chat_input w) then
        let user_input := default EmptyString (chat_input w) in
        let shown := shown ++ [Entry "user" user_input] in
        match invoke llm conversation {[ "question" := VStr user_input ]} sid
                (State history (objects b) (requests b) []) with
        | (Ok response, st) =>
            let answer := msg_content response in
            (Ok Done,
             Browser (Session (Some sid) (Some (store st))
                        (Some (shown ++ [Entry "assistant" answer])))
                     (heap st) (calls st))
        | (Raise e, st) =>
            (Raise e,
             Browser (Session (Some sid) (Some (store st)) (Some shown))
                     (heap st) (calls st))
        end
      else
        (Ok Done,
         Browser (Session (Some sid) (Some history) (Some shown))
                 (objects b) (requests b)).

(** The recorded turns of a session id in the browser state. *)
Definition history_of (b : browser) (sid : string) : list message :=
  match default ∅ (history_store (session b)) !! sid with
  | Some r => default [] (objects b !! r)
  | None => []
  end.

(** A browser session before its first run. *)
Definition initial : browser := Browser (Session None None None) [] [].

End streamlit_app.

(** ** The exchange both front ends perform *)

Inductive front_end :=
  | CommandLine
  | BrowserChat (model_name : string) (temperature : Q) (session_id : string).

Definition conversation_of (f : front_end) : RunnableWithMessageHistory :=
  match f with
  | CommandLine => langchain_app.conversation
  | BrowserChat model_name temperature session_id =>
      streamlit_app.build_conversation model_name temperature session_id
  end.

(** [conversation.invoke({"question": question},
    config={"configurable": {"session_id": sid}})], the call made by the
    loop of [langchain_app.py] and by [main] of [streamlit_app.py]. *)
Definition handle_question (llm : client) (f : front_end) (sid question : string)
  : M message :=
  invoke llm (conversation_of f) {[ "question" := VStr question ]} sid.

(** The request an exchange sends for a question, given the state it
    starts in. *)
Definition request_of (f : front_end) (st : state) (sid question : string) : call :=
  let m := chain_model (runnable (conversation_of f)) in
  Call (model_name_of m) (temperature_of m)
       (Message system langchain_app.system_template
          :: history_of st sid ++ [Message human question]).

(** Every address in the dictionary points into the heap, and no two session
    ids share an address. *)
Definition wf (st : state) : Prop :=
  map_Forall (fun _ r => r < length (heap st)) (store st) /\
  NoDup ((map_to_list (store st)).*2).

#[global] Instance wf_dec (st : state) : Decision (wf st).
Proof. unfold wf. apply _. Defined.

(** The input dictionary the history wrapper hands to the chain. *)
Definition chain_inputs (history : list message) (question : string) : gmap string value :=
  <["history" := VMessages history]> {[ "question" := VStr question ]}.

(** The address and the state after the session's history object has been
    fetched or created. *)
Definition opened (st : state) (sid : string) : nat * state :=
  match store st !! sid with
  | Some r => (r, st)
  | None =>
      (length (heap st),
       State (<[sid := length (heap st)]> (store st)) (heap st ++ [[]])
             (calls st) (stdout st))
  end.

(** Two model clients for the examples: one that answers every request with
    the same text and one that raises on every request. *)
Definition answering (reply : string) : client := fun _ _ => inl reply.

Definition failing (e : exn) : client := fun _ _ => inr e.

(** Well-formedness of a browser session: that of its dictionary and
    history objects. *)
Definition browser_wf (b : streamlit_app.browser) : Prop :=
  wf (State (default ∅ (streamlit_app.history_store (streamlit_app.session b)))
            (streamlit_app.objects b) (streamlit_app.requests b) []).

(** What the loop of [langchain_app.py] keeps true of the dictionary and the
    heap: nothing has been asked yet, or the one key "default" maps to the
    one history object. *)
Definition single_session (st : state) : Prop :=
  (store st = ∅ /\ heap st = []) \/
  (store st = {[ "default" := 0 ]} /\ length (heap st) = 1).

(** Every request in the log replayed turns that are still the beginning of
    the history of [sid], and when the client answered it, the question and
    the reply follow them there. *)
Definition accumulated (llm : client) (sid : string) (st : state) : Prop :=
  forall (i : nat) (c : call),
    calls st !! i = Some c ->
    exists (before : list message) (question : string),
      call_messages c =
        Message system langchain_app.system_template
          :: before ++ [Message human question] /\
      before `prefix_of` history_of st sid /\
      forall reply : string,
        llm (take i (calls st)) c = inl reply ->
        (before ++ [Message human question; Message ai reply])
          `prefix_of` history_of st sid.

(** What every pass of the command-line loop keeps true. *)
Definition cli_invariant (llm : client) (st : state) : Prop :=
  single_session st /\ accumulated llm "default" st.

(** The call log of [st'] is that of [st] followed by requests that all
    satisfy [P]. *)
Definition sends (P : call -> Prop) (old new : list call) : Prop :=
  exists more : list call, new = old ++ more /\ Forall P more.

(** Python's [str.isspace] on ASCII, and a question that is empty or made
    of such characters only: the inputs that the specification wants
    rejected.  The source has no such test. *)
Definition isspace (c : ascii) : bool :=
  let n := nat_of_ascii c in
  ((9 <=? n)%nat && (n <=? 13)%nat) || ((28 <=? n)%nat && (n <=? 32)%nat).

Fixpoint whitespace_only (s : string) : bool :=
  match s with
  | EmptyString => true
  | String c rest => isspace c && whitespace_only rest
  end.

(** Concrete runs used as examples: a first question on a new session that
    the model answers, the same with a model that raises, and a run of the
    browser script on the empty question. *)
Definition akbar_reply : string := "Akbar was a Mughal emperor...".

Definition first_question : result message * state :=
  handle_question (answering akbar_reply) CommandLine "s1" "Who was Akbar?"
    langchain_app.initial.

(** The state after a second session has asked its own question. *)
Definition two_sessions : state :=
  (handle_question (answering "Ashoka was a Mauryan emperor...") CommandLine "s2"
     "Who was Ashoka?" first_question.2).2.

Definition quota_exceeded : exn := ProviderError "quota exceeded".

Definition no_question : streamlit_app.widgets :=
  streamlit_app.Widgets (Some "key") None 0 false (Some EmptyString) "u1".

Definition spaces_question : streamlit_app.widgets :=
  streamlit_app.Widgets (Some "key") None 0 false (Some "   ") "u1".

(** The template both programs build, [ChatPromptTemplate.from_messages] on
    a system text, the history placeholder and the question field, with the
    system text left open; and a text without braces. *)
Definition prompt_with (instruction : string) : ChatPromptTemplate :=
  [ MessageTemplate system instruction;
    MessagesPlaceholder "history";
    MessageTemplate human "{question}" ].

Fixpoint brace_free (s : string) : bool :=
  match s with
  | EmptyString => true
  | String c rest =>
      negb (Ascii.eqb c "{"%char) && negb (Ascii.eqb c "}"%char) && brace_free rest
  end.

(** ** Notions for the runs of the two programs *)

(** The test of the loop on a line it has read. *)
Definition is_exit (line : string) : bool := String.eqb (lower line) "exit".

(** The lines the loop treats as questions: those before the first line
    that passes the test. *)
Fixpoint asked (lines : list string) : list string :=
  match lines with
  | [] => []
  | line :: rest => if is_exit line then [] else line :: asked rest
  end.

Definition has_exit (lines : list string) : bool := existsb is_exit lines.

(** The sixteen spellings of "exit" in upper and lower case. *)
Definition exit_variants : list string :=
  [ "exit"; "exiT"; "exIt"; "exIT"; "eXit"; "eXiT"; "eXIt"; "eXIT";
    "Exit"; "ExiT"; "ExIt"; "ExIT"; "EXit"; "EXiT"; "EXIt"; "EXIT" ].

(** A history made of pairs: a turn of the user, then a turn of the
    assistant. *)
Fixpoint alternating (h : list message) : bool :=
  match h with
  | [] => true
  | m1 :: m2 :: rest =>
      bool_decide (msg_role m1 = human) && bool_decide (msg_role m2 = ai)
        && alternating rest
  | _ => false
  end.

(** Whether a run of the browser script finds a key. *)
Definition has_key (w : streamlit_app.widgets) : bool :=
  truthy (streamlit_app.get_env_api_key (streamlit_app.env_key w) (streamlit_app.secrets w)).

(** The entry of [st.session_state.messages] that shows a recorded turn. *)
Definition to_entry (m : message) : streamlit_app.entry :=
  streamlit_app.Entry
    (match msg_role m with
     | human => "user"
     | ai => "assistant"
     | system => "system"
     end)
    (msg_content m).

(** The session id a run works with: the stored one, or the new one. *)
Definition current_id (w : streamlit_app.widgets) (b : streamlit_app.browser) : string :=
  default (streamlit_app.uuid4 w) (streamlit_app.session_id (streamlit_app.session b)).

(** The dictionary, history objects and requests of a browser session as a
    state of the conversation, and the conversation a run builds. *)
Definition state_of (b : streamlit_app.browser) : state :=
  State (default ∅ (streamlit_app.history_store (streamlit_app.session b)))
        (streamlit_app.objects b) (streamlit_app.requests b) [].

Definition chat_of (w : streamlit_app.widgets) (b : streamlit_app.browser) : front_end :=
  BrowserChat "gemini-1.5-flash"
    (streamlit_app.slider (7 # 10) (streamlit_app.slider_steps w)) (current_id w b).

(** The displayed messages are the recorded turns of the session. *)
Definition synced (b : streamlit_app.browser) : Prop :=
  forall u : string,
    default [] (streamlit_app.messages (streamlit_app.session b)) =
      to_entry <$>
        streamlit_app.history_of b
          (default u (streamlit_app.session_id (streamlit_app.session b))).

(** The dictionary of the browser session has no key but the session's
    own id. *)
Definition own_key_only (b : streamlit_app.browser) : Prop :=
  forall hs : gmap string nat,
    streamlit_app.history_store (streamlit_app.session b) = Some hs ->
    exists sid : string,
      streamlit_app.session_id (streamlit_app.session b) = Some sid /\
      dom hs ⊆ {[ sid ]}.

(** Streamlit runs the script again on every interaction, on the session
    state the run before left, also when that run raised.  Any sequence of
    runs is allowed here.  After a run that pressed "Reset chat", Streamlit
    versions that have [st.experimental_rerun] run the script once more
    without input before the user can act; the sequences that occur there
    are those with such a run after every reset run. *)
Fixpoint reruns (llm : client) (ws : list streamlit_app.widgets) (b : streamlit_app.browser)
  : streamlit_app.browser :=
  match ws with
  | [] => b
  | w :: rest => reruns llm rest (streamlit_app.main llm w b).2
  end.

(** A run without input: a key is found, the reset button is not pressed
    and the chat input gave nothing. *)
Definition quiet (w : streamlit_app.widgets) : Prop :=
  has_key w = true /\ streamlit_app.reset_clicked w = false /\
  truthy (streamlit_app.chat_input w) = false.

Definition rerun_after_reset : streamlit_app.widgets :=
  streamlit_app.Widgets (Some "key") None 0 false None "u4".

(** More concrete inputs for examples. *)
Definition ask_akbar : streamlit_app.widgets :=
  streamlit_app.Widgets (Some "key") None 0 false (Some "Who was Akbar?") "u1".

Definition press_reset : streamlit_app.widgets :=
  streamlit_app.Widgets (Some "key") None 0 true (Some "Who was Akbar?") "u2".

Definition ask_ashoka : streamlit_app.widgets :=
  streamlit_app.Widgets None (Some (Some "key")) 5 false (Some "Who was Ashoka?") "u3".

Definition asked_once : streamlit_app.browser :=
  (streamlit_app.main (answering akbar_reply) ask_akbar streamlit_app.initial).2.

(** * Properties *)

(** ** The session dictionary *)

Lemma get_session_history_known (sid : string) (st : state) (r : nat) :
  store st !! sid = Some r -> get_session_history sid st = (Ok r, st).
Proof.
  intros H. unfold get_session_history, bind, dict_contains, dict_get, ret.
  rewrite H. rewrite bool_decide_eq_true_2 by eauto. simpl. by rewrite H.
Qed.

Lemma get_session_history_new (sid : string) (st : state) :
  store st !! sid = None ->
  get_session_history sid st =
    (Ok (length (heap st)),
     State (<[sid := length (heap st)]> (store st)) (heap st ++ [[]])
           (calls st) (stdout st)).
Proof.
  intros H. unfold get_session_history, bind, dict_contains, dict_get, ret,
    InMemoryChatMessageHistory, dict_set.
  rewrite H. rewrite bool_decide_eq_false_2 by (intros [? ?]; discriminate).
  simpl. by rewrite lookup_insert_eq.
Qed.

Lemma _get_session_history_eq : _get_session_history = get_session_history.
Proof. reflexivity. Qed.

Lemma wf_bound (st : state) (sid : string) (r : nat) :
  wf st -> store st !! sid = Some r -> r < length (heap st).
Proof. intros [Hb _] H. exact (Hb sid r H). Qed.

Lemma wf_inj (st : state) (s1 s2 : string) (r : nat) :
  wf st -> store st !! s1 = Some r -> store st !! s2 = Some r -> s1 = s2.
Proof.
  intros [_ Hn] H1 H2.
  apply elem_of_map_to_list in H1, H2.
  destruct (decide (s1 = s2)) as [|Hne]; [done|exfalso].
  apply list_elem_of_lookup in H1 as [i Hi], H2 as [j Hj].
  assert (i = j) as ->.
  { eapply NoDup_lookup; [exact Hn| |].
    - rewrite list_lookup_fmap, Hi. reflexivity.
    - rewrite list_lookup_fmap, Hj. reflexivity. }
  congruence.
Qed.

Lemma wf_initial : wf langchain_app.initial.
Proof. vm_compute. split; [|constructor]. intros k x H. discriminate. Qed.

(** ** Prompt assembly *)

Lemma append_empty_r (s : string) : s +:+ EmptyString = s.
Proof. induction s as [|c s IH]; [done|]. change (String c (s +:+ EmptyString) = String c s). by rewrite IH. Qed.

Lemma system_template_same :
  streamlit_app.system_template = langchain_app.system_template.
Proof. reflexivity. Qed.

(** The system instruction has no brace: formatting returns it as it is,
    whatever the inputs. *)
Lemma format_system_template (inputs : gmap string value) :
  format langchain_app.system_template inputs = Ok langchain_app.system_template.
Proof. reflexivity. Qed.

Lemma format_question (inputs : gmap string value) (question : string) :
  inputs !! "question" = Some (VStr question) ->
  format "{question}" inputs = Ok question.
Proof.
  intros H. unfold format.
  change (format_from inputs Text "{question}")
    with (match field_text inputs "question" with
          | Some v => Ok (v +:+ EmptyString)
          | None => Raise (KeyError "question")
          end).
  unfold field_text. rewrite H. by rewrite append_empty_r.
Qed.

Lemma chain_inputs_question (history : list message) (question : string) :
  chain_inputs history question !! "question" = Some (VStr question).
Proof.
  unfold chain_inputs. rewrite lookup_insert_ne by discriminate.
  apply lookup_singleton_eq.
Qed.

Lemma chain_inputs_history (history : list message) (question : string) :
  chain_inputs history question !! "history" = Some (VMessages history).
Proof. unfold chain_inputs. apply lookup_insert_eq. Qed.

Lemma format_messages_prompt (history : list message) (question : string) :
  format_messages langchain_app.prompt_template (chain_inputs history question) =
    Ok (Message system langchain_app.system_template
          :: history ++ [Message human question]).
Proof.
  unfold langchain_app.prompt_template, format_messages, format_part.
  rewrite format_system_template, chain_inputs_history.
  rewrite (format_question _ question) by apply chain_inputs_question.
  reflexivity.
Qed.

(** ** One exchange, in closed form *)

Lemma get_session_history_opened (sid : string) (st : state) :
  get_session_history sid st = (Ok (opened st sid).1, (opened st sid).2).
Proof.
  unfold opened. destruct (store st !! sid) as [r|] eqn:H.
  - by apply get_session_history_known.
  - by apply get_session_history_new.
Qed.

Lemma opened_messages (st : state) (sid : string) :
  default [] (heap (opened st sid).2 !! (opened st sid).1) = history_of st sid.
Proof.
  unfold opened, history_of. destruct (store st !! sid) as [r|]; simpl; [done|].
  by rewrite lookup_app_r, Nat.sub_diag by lia.
Qed.

Lemma opened_calls (st : state) (sid : string) : calls (opened st sid).2 = calls st.
Proof. unfold opened. by destruct (store st !! sid). Qed.

Lemma opened_stdout (st : state) (sid : string) : stdout (opened st sid).2 = stdout st.
Proof. unfold opened. by destruct (store st !! sid). Qed.

Lemma opened_store (st : state) (sid : string) :
  store (opened st sid).2 !! sid = Some (opened st sid).1.
Proof.
  unfold opened. destruct (store st !! sid) as [r|] eqn:H; simpl; [done|].
  apply lookup_insert_eq.
Qed.

Lemma conversation_shape (f : front_end) :
  conversation_of f =
    Runnable (Chain langchain_app.prompt_template (chain_model (runnable (conversation_of f))))
             get_session_history "question" "history".
Proof. by destruct f. Qed.

Lemma handle_question_eq (llm : client) (f : front_end) (sid question : string) (st : state) :
  handle_question llm f sid question st =
    let r := (opened st sid).1 in
    let st1 := (opened st sid).2 in
    let c := request_of f st sid question in
    match llm (calls st) c with
    | inl reply =>
        (Ok (Message ai reply),
         State (store st1)
               (<[r := history_of st sid ++ [Message human question; Message ai reply]]> (heap st1))
               (calls st ++ [c]) (stdout st))
    | inr e => (Raise e, State (store st1) (heap st1) (calls st ++ [c]) (stdout st))
    end.
Proof.
  unfold handle_question, invoke, request_of.
  pose proof (conversation_shape f) as Hs.
  set (m := chain_model (runnable (conversation_of f))) in *. clearbody m.
  rewrite Hs. clear Hs.
  cbn [get_history runnable history_messages_key input_messages_key chain_model].
  unfold bind at 1. rewrite get_session_history_opened.
  unfold bind at 1, messages_of at 1. rewrite opened_messages.
  unfold bind at 1, chain_invoke. cbn [chain_prompt chain_model].
  change (<["history" := VMessages (history_of st sid)]> {["question" := VStr question]})
    with (chain_inputs (history_of st sid) question).
  rewrite format_messages_prompt. unfold call_model.
  rewrite opened_calls, opened_stdout.
  destruct (llm _ _) as [reply|e]; [|done].
  rewrite lookup_singleton_eq. unfold bind, add_messages, ret. cbn.
  by rewrite opened_messages.
Qed.

(** ** Well-formedness is kept, and what it gives *)

Lemma lookup_fresh_default (h : list (list message)) (r : nat) :
  default [] ((h ++ [[]]) !! r) = default [] (h !! r).
Proof.
  destruct (decide (r < length h)) as [Hlt|Hge].
  - by rewrite lookup_app_l.
  - rewrite (lookup_ge_None_2 h r) by lia.
    destruct (decide (r = length h)) as [->|Hne].
    + by rewrite lookup_app_r, Nat.sub_diag by lia.
    + rewrite lookup_ge_None_2; [done|]. rewrite length_app. simpl. lia.
Qed.

Lemma opened_history (st : state) (sid s : string) :
  history_of (opened st sid).2 s = history_of st s.
Proof.
  destruct (decide (s = sid)) as [->|Hne].
  - unfold history_of at 1. rewrite opened_store. apply opened_messages.
  - unfold opened, history_of. destruct (store st !! sid) as [r|]; simpl; [done|].
    rewrite lookup_insert_ne by done.
    destruct (store st !! s) as [r'|]; [|done]. apply lookup_fresh_default.
Qed.

Lemma opened_wf (st : state) (sid : string) : wf st -> wf (opened st sid).2.
Proof.
  intros Hwf. unfold opened. destruct (store st !! sid) as [r|] eqn:H; [done|].
  destruct Hwf as [Hb Hn]. split; simpl.
  - apply map_Forall_insert_2.
    + rewrite length_app. simpl. lia.
    + intros k x Hk. specialize (Hb k x Hk). simpl in Hb.
      rewrite length_app. simpl. lia.
  - rewrite (fmap_Permutation snd _ _ (map_to_list_insert _ _ _ H)). simpl.
    constructor; [|done].
    intros Hin. apply list_elem_of_fmap in Hin as [[k x] [Hx Hk]]. simpl in Hx.
    apply elem_of_map_to_list in Hk. specialize (Hb k x Hk). simpl in Hb. lia.
Qed.

Lemma opened_bound (st : state) (sid : string) :
  wf st -> (opened st sid).1 < length (heap (opened st sid).2).
Proof.
  intros Hwf. apply (wf_bound _ sid); [by apply opened_wf | apply opened_store].
Qed.

Lemma exchange_wf (llm : client) (f : front_end) (sid question : string) (st : state) :
  wf st -> wf (handle_question llm f sid question st).2.
Proof.
  intros Hwf. rewrite handle_question_eq. cbv zeta.
  pose proof (opened_wf st sid Hwf) as [Hb Hn].
  destruct (llm _ _); split; simpl; try done.
  intros k x Hk. rewrite length_insert. exact (Hb k x Hk).
Qed.

(** An exchange sends one request, answered or not. *)
Lemma exchange_calls (llm : client) (f : front_end) (sid question : string) (st : state) :
  calls (handle_question llm f sid question st).2 =
    calls st ++ [request_of f st sid question].
Proof. rewrite handle_question_eq. cbv zeta. by destruct (llm _ _). Qed.

(** The recorded turns of every session after an exchange that the model
    answered. *)
Lemma exchange_answered (llm : client) (f : front_end) (sid question : string)
    (st : state) (reply : string) (s : string) :
  wf st ->
  llm (calls st) (request_of f st sid question) = inl reply ->
  history_of (handle_question llm f sid question st).2 s =
    if decide (s = sid)
    then history_of st sid ++ [Message human question; Message ai reply]
    else history_of st s.
Proof.
  intros Hwf Hllm. rewrite handle_question_eq. cbv zeta. rewrite Hllm.
  unfold history_of at 1. simpl.
  destruct (decide (s = sid)) as [->|Hne].
  - rewrite opened_store. rewrite list_lookup_insert_eq; [done|].
    by apply opened_bound.
  - rewrite <- (opened_history st sid s). unfold history_of.
    destruct (store (opened st sid).2 !! s) as [r'|] eqn:Hs; [|done].
    rewrite list_lookup_insert_ne; [done|].
    intros Heq. apply Hne. symmetry.
    apply (wf_inj (opened st sid).2 sid s (opened st sid).1).
    + by apply opened_wf.
    + apply opened_store.
    + by rewrite Heq.
Qed.

(** The recorded turns of every session after an exchange in which the
    model client raised. *)
Lemma exchange_raised (llm : client) (f : front_end) (sid question : string)
    (st : state) (e : exn) (s : string) :
  llm (calls st) (request_of f st sid question) = inr e ->
  history_of (handle_question llm f sid question st).2 s = history_of st s.
Proof.
  intros Hllm. rewrite handle_question_eq. cbv zeta. rewrite Hllm.
  rewrite <- (opened_history st sid s). reflexivity.
Qed.

(** ** The claims on the session dictionary and on prompt assembly *)

(** C4. [get_session_history] (and [_get_session_history], the same body)
    returns the address already stored under the id when there is one, and
    leaves the state as it is; otherwise it creates an empty history object,
    stores its address under the id and returns it.  In both cases the id
    then maps to the returned address, a second lookup returns that same
    address without changing anything, and the dictionary has gained at most
    the one key, the other keys mapping to what they mapped to before. *)
Theorem get_session_history_get_or_create (sid : string) (st : state) :
  exists (r : nat) (st1 : state),
    get_session_history sid st = (Ok r, st1) /\
    _get_session_history sid st = (Ok r, st1) /\
    match store st !! sid with
    | Some r0 => r = r0 /\ st1 = st
    | None =>
        r = length (heap st) /\
        heap st !! r = None /\
        heap st1 = heap st ++ [[]] /\
        store st1 = <[sid := r]> (store st)
    end /\
    store st1 !! sid = Some r /\
    history_of st1 sid = history_of st sid /\
    get_session_history sid st1 = (Ok r, st1) /\
    dom (store st1) = {[ sid ]} ∪ dom (store st) /\
    (forall s : string, s <> sid -> store st1 !! s = store st !! s).
Proof.
  exists (opened st sid).1, (opened st sid).2.
  rewrite _get_session_history_eq, get_session_history_opened.
  split; [done|]. split; [done|].
  split.
  { unfold opened. destruct (store st !! sid) as [r0|]; simpl; [done|].
    split; [done|]. split; [|done]. apply lookup_ge_None_2. lia. }
  split; [apply opened_store|].
  split; [apply opened_history|].
  split; [apply get_session_history_known, opened_store|].
  unfold opened. destruct (store st !! sid) as [r0|] eqn:H; simpl.
  - split; [|done]. symmetry. apply subseteq_union_1_L, singleton_subseteq_l.
    by apply (elem_of_dom_2 _ _ r0).
  - split; [apply dom_insert_L|].
    intros s Hs. by rewrite lookup_insert_ne.
Qed.

(** The templates of the two programs, formatted with a history and a
    question: the system instruction, the history messages as they are, the
    question as a message of role [human]. *)
Lemma program_prompts (history : list message) (question : string) :
  format_messages langchain_app.prompt_template (chain_inputs history question) =
    Ok ([Message system langchain_app.system_template] ++ history ++
        [Message human question]) /\
  forall (model_name : string) (temperature : Q) (session_id : string),
    format_messages
      (chain_prompt (runnable
         (streamlit_app.build_conversation model_name temperature session_id)))
      (chain_inputs history question) =
    Ok ([Message system streamlit_app.system_template] ++ history ++
        [Message human question]).
Proof.
  split; [apply format_messages_prompt|].
  intros model_name temperature session_id.
  rewrite system_template_same. apply format_messages_prompt.
Qed.

Lemma format_brace_free (inputs : gmap string value) (s : string) :
  brace_free s = true -> format s inputs = Ok s.
Proof.
  unfold format. induction s as [|c rest IH]; intros H; [done|].
  cbn [brace_free] in H. apply andb_prop in H as [H Hrest].
  apply andb_prop in H as [Hopen Hclose].
  apply negb_true_iff in Hopen, Hclose.
  cbn [format_from]. rewrite Hopen, Hclose. by rewrite (IH Hrest).
Qed.

(** C5, as amended.  The system instruction is a format template like the
    question field.  For every system instruction without a brace, every
    history and every question, formatting the three-part template gives
    the system instruction, then the history messages as they are (each
    with its own role), then the question as a message of role [human] (the
    user); braces in the question or in the history are not read as
    fields.  The templates of both programs are of this form, with the one
    fixed instruction, which has no brace.  The result is computed from the
    template and the inputs alone: [format_messages] neither receives nor
    returns program state. *)
Theorem prompt_assembly (instruction : string) (history : list message)
    (question : string) :
  brace_free instruction = true ->
  format_messages (prompt_with instruction) (chain_inputs history question) =
    Ok ([Message system instruction] ++ history ++ [Message human question]) /\
  langchain_app.prompt_template = prompt_with langchain_app.system_template /\
  (forall (model_name : string) (temperature : Q) (session_id : string),
     chain_prompt (runnable
       (streamlit_app.build_conversation model_name temperature session_id)) =
     prompt_with streamlit_app.system_template) /\
  brace_free langchain_app.system_template = true /\
  brace_free streamlit_app.system_template = true.
Proof.
  intros Hfree. split; [|done].
  unfold prompt_with, format_messages, format_part.
  rewrite (format_brace_free _ instruction Hfree), chain_inputs_history.
  rewrite (format_question _ question) by apply chain_inputs_question.
  reflexivity.
Qed.

(** C5, as stated, fails: a system instruction is not taken literally.  One
    that names a field in braces makes the assembly raise instead of giving
    a prompt, and one with doubled braces comes out with single ones. *)
Lemma braces_in_system_instruction :
  (exists e : exn,
     format_messages (prompt_with "Answer in {language}.")
       (chain_inputs [] "Who was Akbar?") = Raise e) /\
  format_messages (prompt_with "Answer in {language}.")
    (chain_inputs [] "Who was Akbar?") <>
    Ok ([Message system "Answer in {language}."] ++ [] ++
        [Message human "Who was Akbar?"]) /\
  format_messages (prompt_with "Write sets as {{a, b}}.")
    (chain_inputs [] "Who was Akbar?") =
    Ok [Message system "Write sets as {a, b}."; Message human "Who was Akbar?"].
Proof.
  split; [|split].
  - eexists. vm_compute. reflexivity.
  - vm_compute. discriminate.
  - vm_compute. reflexivity.
Qed.

(** ** The claims on one exchange *)

(** C1. When an exchange returns, the session's history is the history
    before it followed by the user's turn and then the assistant's turn:
    two more turns, the earlier ones kept in place; and the returned message
    is the assistant's, carrying the text the model client replied with. *)
Theorem handle_question_success (llm : client) (f : front_end) (sid question : string)
    (st st' : state) (response : message) :
  wf st ->
  handle_question llm f sid question st = (Ok response, st') ->
  history_of st' sid =
    history_of st sid ++ [Message human question; response] /\
  length (history_of st' sid) = length (history_of st sid) + 2 /\
  take (length (history_of st sid)) (history_of st' sid) = history_of st sid /\
  msg_role response = ai /\
  llm (calls st) (request_of f st sid question) = inl (msg_content response).
Proof.
  intros Hwf Hrun.
  destruct (llm (calls st) (request_of f st sid question)) as [reply|e] eqn:Hllm.
  - pose proof (exchange_answered llm f sid question st reply sid Hwf Hllm) as Hh.
    rewrite decide_True in Hh by done.
    rewrite Hrun in Hh. cbn [snd] in Hh.
    rewrite handle_question_eq in Hrun. cbv zeta in Hrun.
    rewrite Hllm in Hrun. injection Hrun as <- _.
    rewrite Hh. rewrite length_app, take_app_length. simpl. done.
  - rewrite handle_question_eq in Hrun. cbv zeta in Hrun. rewrite Hllm in Hrun.
    discriminate.
Qed.

(** C2, as amended.  When the model client raises, the exchange raises
    that same exception to its caller, not wrapped in any other error, and
    the recorded turns of the session (and of every other session) are what
    they were before. *)
Theorem handle_question_failure (llm : client) (f : front_end) (sid question : string)
    (st : state) (e : exn) :
  llm (calls st) (request_of f st sid question) = inr e ->
  exists st' : state,
    handle_question llm f sid question st = (Raise e, st') /\
    history_of st' sid = history_of st sid /\
    length (history_of st' sid) = length (history_of st sid) /\
    (forall s : string, history_of st' s = history_of st s).
Proof.
  intros Hllm. exists (handle_question llm f sid question st).2.
  pose proof (exchange_raised llm f sid question st e) as Hh.
  split.
  - rewrite handle_question_eq. cbv zeta. by rewrite Hllm.
  - split; [by apply Hh|]. split; [by rewrite Hh | by intros s; apply Hh].
Qed.

(** C2, as stated, fails in one point: the error that reaches the caller
    does not wrap the cause.  The program has no error class of its own;
    when the provider reports an exhausted quota, what the exchange raises
    is the provider's exception itself, in both front ends, and any
    exception the exchange raises there is that one. *)
Lemma failure_is_not_wrapped :
  (handle_question (failing quota_exceeded) CommandLine "s1" "Who was Ashoka?"
     first_question.2).1 = Raise (ProviderError "quota exceeded") /\
  (forall e : exn,
     (handle_question (failing quota_exceeded) CommandLine "s1" "Who was Ashoka?"
        first_question.2).1 = Raise e ->
     e = quota_exceeded) /\
  (streamlit_app.main (failing quota_exceeded) ask_ashoka asked_once).1 =
    Raise (ProviderError "quota exceeded").
Proof.
  split; [|split].
  - vm_compute. reflexivity.
  - intros e He. vm_compute in He. by injection He as <-.
  - vm_compute. reflexivity.
Qed.

(** C6. An exchange on one session, whether answered or failed, and any
    extension of that session's history object, leave the recorded turns of
    every other session as they were. *)
Theorem session_isolation (llm : client) (f : front_end) (a b question : string)
    (st : state) :
  wf st ->
  a <> b ->
  history_of (handle_question llm f a question st).2 b = history_of st b /\
  forall (r : nat) (ms : list message),
    store st !! a = Some r ->
    history_of (add_messages r ms st).2 b = history_of st b.
Proof.
  intros Hwf Hab. split.
  - destruct (llm (calls st) (request_of f st a question)) as [reply|e] eqn:Hllm.
    + rewrite (exchange_answered llm f a question st reply b Hwf Hllm).
      by rewrite decide_False.
    + by apply (exchange_raised llm f a question st e).
  - intros r ms Ha. unfold add_messages, history_of. simpl.
    destruct (store st !! b) as [r'|] eqn:Hb; [|done].
    rewrite list_lookup_insert_ne; [done|].
    intros ->. apply Hab. by apply (wf_inj st a b r').
Qed.

(** C8. The request an exchange sends carries the system instruction, then
    every recorded turn of the session in recorded order, then the new
    question: nothing is cut off, whatever the length of the history. *)
Theorem prompt_replays_whole_history (llm : client) (f : front_end)
    (sid question : string) (st : state) :
  exists c : call,
    calls (handle_question llm f sid question st).2 = calls st ++ [c] /\
    call_messages c =
      Message system langchain_app.system_template
        :: history_of st sid ++ [Message human question] /\
    length (call_messages c) = length (history_of st sid) + 2 /\
    (forall (i : nat) (m : message),
       history_of st sid !! i = Some m -> call_messages c !! (S i) = Some m).
Proof.
  exists (request_of f st sid question).
  split.
  - apply exchange_calls.
  - unfold request_of. cbn [call_messages]. split; [done|]. split.
    + simpl. rewrite length_app. simpl. lia.
    + intros i m Hi. simpl. by apply lookup_app_l_Some.
Qed.

(** ** The command-line loop *)

Lemma answer_eq (llm : client) (user_input : string) (st : state) :
  langchain_app.answer llm user_input st =
    match handle_question llm CommandLine "default" user_input st with
    | (Ok response, st') => print ("AI:  " +:+ msg_content response) st'
    | (Raise e, st') =>
        print ("Error: " +:+ str_exn e +:+ ", plz check your api key and try again") st'
    end.
Proof.
  unfold langchain_app.answer, try_except, bind, handle_question. cbn [conversation_of].
  by destruct (invoke _ _ _ _ _) as [[response|e] st'].
Qed.

Lemma loop_cons (llm : client) (user_input : string) (rest : list string) (st : state) :
  langchain_app.loop llm (user_input :: rest) st =
    let st0 := (print "Your question: " st).2 in
    if String.eqb (lower user_input) "exit"
    then print "Goodbye!" st0
    else match langchain_app.answer llm user_input st0 with
         | (Ok _, st1) => langchain_app.loop llm rest st1
         | (Raise e, st1) => (Raise e, st1)
         end.
Proof.
  cbn [langchain_app.loop]. unfold bind at 1. cbn [print snd].
  destruct (String.eqb (lower user_input) "exit"); [done|].
  unfold bind at 1. by destruct (langchain_app.answer _ _ _) as [[[]|e] st1].
Qed.

(** C9. A line whose lowercase form is "exit" ends the loop at once: the
    loop returns, the lines after it are not read, no request is sent to
    the model, and the dictionary and the history objects are what they
    were; only the prompt and the farewell are printed. *)
Theorem exit_ends_loop (llm : client) (line : string) (rest : list string) (st : state) :
  lower line = "exit" ->
  langchain_app.loop llm (line :: rest) st =
    (Ok tt,
     State (store st) (heap st) (calls st)
           (stdout st ++ ["Your question: "; "Goodbye!"])) /\
  calls (langchain_app.loop llm (line :: rest) st).2 = calls st /\
  forall s : string,
    history_of (langchain_app.loop llm (line :: rest) st).2 s = history_of st s.
Proof.
  intros Hexit.
  assert (langchain_app.loop llm (line :: rest) st =
    (Ok tt, State (store st) (heap st) (calls st)
                  (stdout st ++ ["Your question: "; "Goodbye!"]))) as Heq.
  { rewrite loop_cons. cbv zeta. rewrite Hexit.
    change (String.eqb "exit" "exit") with true. unfold print.
    cbn [snd store heap calls stdout]. by rewrite <- app_assoc. }
  rewrite Heq. done.
Qed.

Lemma single_session_wf (st : state) : single_session st -> wf st.
Proof.
  intros [[Hs Hh]|[Hs Hh]]; unfold wf; rewrite Hs.
  - split; [apply map_Forall_empty|]. rewrite map_to_list_empty. constructor.
  - split.
    + apply map_Forall_singleton. lia.
    + rewrite map_to_list_singleton. simpl. apply NoDup_singleton.
Qed.

Lemma single_session_opened (st : state) :
  single_session st -> single_session (opened st "default").2.
Proof.
  intros [[Hs Hh]|[Hs Hh]]; unfold opened; rewrite Hs.
  - rewrite lookup_empty. right. simpl. rewrite Hh. split; [|done].
    by rewrite insert_empty.
  - rewrite lookup_singleton_eq. right. simpl. by rewrite Hs.
Qed.

Lemma single_session_exchange (llm : client) (question : string) (st : state) :
  single_session st ->
  single_session (handle_question llm CommandLine "default" question st).2.
Proof.
  intros H. apply single_session_opened in H.
  rewrite handle_question_eq. cbv zeta.
  destruct (llm _ _); destruct H as [[Hs Hh]|[Hs Hh]]; [left|right|left|right];
    simpl; rewrite ?length_insert, ?Hh; done.
Qed.

Lemma exchange_grows (llm : client) (f : front_end) (sid question : string) (st : state) :
  wf st ->
  history_of st sid `prefix_of` history_of (handle_question llm f sid question st).2 sid.
Proof.
  intros Hwf.
  destruct (llm (calls st) (request_of f st sid question)) as [reply|e] eqn:Hllm.
  - rewrite (exchange_answered llm f sid question st reply sid Hwf Hllm).
    rewrite decide_True by done. by apply prefix_app_r.
  - by rewrite (exchange_raised llm f sid question st e sid Hllm).
Qed.

Lemma accumulated_exchange (llm : client) (f : front_end) (sid question : string)
    (st : state) :
  wf st ->
  accumulated llm sid st ->
  accumulated llm sid (handle_question llm f sid question st).2.
Proof.
  intros Hwf Hacc i c Hi.
  pose proof (exchange_grows llm f sid question st Hwf) as Hgrow.
  rewrite exchange_calls in Hi |- *.
  destruct (decide (i < length (calls st))) as [Hlt|Hge].
  - rewrite lookup_app_l in Hi by done.
    destruct (Hacc i c Hi) as (before & q & Hc & Hpre & Hans).
    exists before, q. split; [done|]. split; [by etransitivity|].
    intros reply Hllm. rewrite take_app_le in Hllm by lia.
    etransitivity; [by apply Hans | done].
  - assert (i = length (calls st)) as ->.
    { apply lookup_lt_Some in Hi. rewrite length_app in Hi. simpl in Hi. lia. }
    rewrite list_lookup_middle in Hi by done. injection Hi as <-.
    exists (history_of st sid), question. split; [done|]. split; [done|].
    intros reply Hllm. rewrite take_app_length in Hllm.
    rewrite (exchange_answered llm f sid question st reply sid Hwf Hllm).
    by rewrite decide_True.
Qed.

(** Printing touches neither the dictionary, the heap nor the call log. *)
Lemma same_sessions (llm : client) (sid : string) (st st' : state) :
  store st' = store st -> heap st' = heap st -> calls st' = calls st ->
  (single_session st -> single_session st') /\
  (accumulated llm sid st -> accumulated llm sid st').
Proof.
  intros Hs Hh Hc. unfold single_session, accumulated, history_of.
  by rewrite Hs, Hh, Hc.
Qed.

Lemma cli_invariant_print (llm : client) (line : string) (st : state) :
  cli_invariant llm st -> cli_invariant llm (print line st).2.
Proof.
  intros [H1 H2].
  pose proof (same_sessions llm "default" st (print line st).2
                eq_refl eq_refl eq_refl) as [G1 G2].
  split; auto.
Qed.

Lemma cli_invariant_answer (llm : client) (user_input : string) (st : state) :
  cli_invariant llm st -> cli_invariant llm (langchain_app.answer llm user_input st).2.
Proof.
  intros [H1 H2]. rewrite answer_eq.
  assert (cli_invariant llm (handle_question llm CommandLine "default" user_input st).2) as H.
  { split; [by apply single_session_exchange|].
    apply accumulated_exchange; [by apply single_session_wf | done]. }
  destruct (handle_question _ _ _ _ _) as [[response|e] st']; by apply cli_invariant_print.
Qed.

Lemma cli_invariant_loop (llm : client) (lines : list string) (st : state) :
  cli_invariant llm st -> cli_invariant llm (langchain_app.loop llm lines st).2.
Proof.
  revert st. induction lines as [|line rest IH]; intros st H.
  - cbn [langchain_app.loop]. unfold bind, raise.
    apply (cli_invariant_print llm "Your question: ") in H.
    by destruct (print _ st) as [[[]|e] st'].
  - rewrite loop_cons. cbv zeta.
    apply (cli_invariant_print llm "Your question: ") in H.
    destruct (String.eqb (lower line) "exit"); [by apply cli_invariant_print|].
    apply (cli_invariant_answer llm line) in H.
    destruct (langchain_app.answer _ _ _) as [[[]|e] st1]; [by apply IH | done].
Qed.

Lemma cli_invariant_initial (llm : client) : cli_invariant llm langchain_app.initial.
Proof.
  split; [by left|]. intros i c Hi. cbn [langchain_app.initial calls] in Hi.
  by rewrite lookup_nil in Hi.
Qed.

(** C10. Whatever key, lines and model client a run of [langchain_app.py]
    meets, its dictionary never has a key other than "default" and there is
    never more than one history object; the turns each request replayed are
    the beginning of the history of "default" at the end of the run, and
    every answered exchange has its question and its reply there right
    after them. *)
Theorem cli_single_session (llm : client) (api_key : option string) (lines : list string) :
  let st' := (langchain_app.program llm api_key lines langchain_app.initial).2 in
  dom (store st') ⊆ {[ "default" ]} /\
  length (heap st') <= 1 /\
  (forall s : string, s <> "default" -> history_of st' s = []) /\
  accumulated llm "default" st'.
Proof.
  cbv zeta.
  assert (cli_invariant llm
            (langchain_app.program llm api_key lines langchain_app.initial).2) as [H1 H2].
  { unfold langchain_app.program.
    destruct (negb (truthy api_key)); [apply cli_invariant_initial|].
    unfold bind at 1.
    pose proof (cli_invariant_print llm
      "Welcome to the history chatbot! Type 'exit' to end the conversation."
      langchain_app.initial (cli_invariant_initial llm)) as H.
    destruct (print _ langchain_app.initial) as [[[]|e] st0]; [|done].
    by apply cli_invariant_loop. }
  split; [|split; [|split; [|done]]].
  - destruct H1 as [[Hs _]|[Hs _]]; rewrite Hs.
    + rewrite dom_empty_L. set_solver.
    + by rewrite dom_singleton_L.
  - destruct H1 as [[_ Hh]|[_ Hh]]; rewrite Hh; simpl; lia.
  - intros s Hs. unfold history_of.
    destruct H1 as [[Hst _]|[Hst _]]; rewrite Hst.
    + by rewrite lookup_empty.
    + by rewrite lookup_singleton_ne.
Qed.

(** ** The browser script *)

Lemma main_asks (llm : client) (w : streamlit_app.widgets) (b : streamlit_app.browser)
    (question : string) :
  truthy (streamlit_app.get_env_api_key (streamlit_app.env_key w) (streamlit_app.secrets w)) = true ->
  streamlit_app.reset_clicked w = false ->
  streamlit_app.chat_input w = Some question ->
  question <> EmptyString ->
  streamlit_app.main llm w b =
    let sid := default (streamlit_app.uuid4 w) (streamlit_app.session_id (streamlit_app.session b)) in
    let shown :=
      default [] (streamlit_app.messages (streamlit_app.session b))
        ++ [streamlit_app.Entry "user" question] in
    match handle_question llm
            (BrowserChat "gemini-1.5-flash"
               (streamlit_app.slider (7 # 10) (streamlit_app.slider_steps w)) sid)
            sid question
            (State (default ∅ (streamlit_app.history_store (streamlit_app.session b)))
                   (streamlit_app.objects b) (streamlit_app.requests b) []) with
    | (Ok response, st) =>
        (Ok streamlit_app.Done,
         streamlit_app.Browser
           (streamlit_app.Session (Some sid) (Some (store st))
              (Some (shown ++ [streamlit_app.Entry "assistant" (msg_content response)])))
           (heap st) (calls st))
    | (Raise e, st) =>
        (Raise e,
         streamlit_app.Browser
           (streamlit_app.Session (Some sid) (Some (store st)) (Some shown))
           (heap st) (calls st))
    end.
Proof.
  intros Hkey Hreset Hinput Hq. unfold streamlit_app.main.
  rewrite Hkey, Hreset, Hinput. cbn [negb default].
  assert (truthy (Some question) = true) as -> by (by destruct question).
  reflexivity.
Qed.

Lemma main_skips (llm : client) (w : streamlit_app.widgets) (b : streamlit_app.browser) :
  truthy (streamlit_app.get_env_api_key (streamlit_app.env_key w) (streamlit_app.secrets w)) = true ->
  streamlit_app.reset_clicked w = false ->
  truthy (streamlit_app.chat_input w) = false ->
  streamlit_app.main llm w b =
    (Ok streamlit_app.Done,
     streamlit_app.Browser
       (streamlit_app.Session
          (Some (default (streamlit_app.uuid4 w)
                   (streamlit_app.session_id (streamlit_app.session b))))
          (Some (default ∅ (streamlit_app.history_store (streamlit_app.session b))))
          (Some (default [] (streamlit_app.messages (streamlit_app.session b)))))
       (streamlit_app.objects b) (streamlit_app.requests b)).
Proof.
  intros Hkey Hreset Hinput. unfold streamlit_app.main.
  by rewrite Hkey, Hreset, Hinput.
Qed.

(** Every run of the script keeps the browser session well-formed, also
    the run that clears the session state. *)
Lemma main_wf (llm : client) (w : streamlit_app.widgets) (b : streamlit_app.browser) :
  browser_wf b -> browser_wf (streamlit_app.main llm w b).2.
Proof.
  intros Hwf. unfold streamlit_app.main.
  destruct (negb (truthy _)); [done|].
  destruct (streamlit_app.reset_clicked w).
  { split; cbn; [apply map_Forall_empty | rewrite map_to_list_empty; constructor]. }
  destruct (truthy (streamlit_app.chat_input w)); [|done].
  match goal with
  | |- context [invoke llm ?conv ?input ?sid ?st] =>
      pose proof (exchange_wf llm
                    (BrowserChat "gemini-1.5-flash"
                       (streamlit_app.slider (7 # 10) (streamlit_app.slider_steps w)) sid)
                    sid (default EmptyString (streamlit_app.chat_input w)) st Hwf) as H;
      change (handle_question llm
                (BrowserChat "gemini-1.5-flash"
                   (streamlit_app.slider (7 # 10) (streamlit_app.slider_steps w)) sid)
                sid (default EmptyString (streamlit_app.chat_input w)) st)
        with (invoke llm conv input sid st) in H
  end.
  by destruct (invoke _ _ _ _ _) as [[response|e] st'].
Qed.

Lemma browser_wf_initial : browser_wf streamlit_app.initial.
Proof. split; cbn; [apply map_Forall_empty | rewrite map_to_list_empty; constructor]. Qed.

(** ** Temperature *)

Lemma sends_refl (P : call -> Prop) (cs : list call) : sends P cs cs.
Proof. exists []. by rewrite app_nil_r. Qed.

Lemma sends_trans (P : call -> Prop) (a b c : list call) :
  sends P a b -> sends P b c -> sends P a c.
Proof.
  intros (m1 & -> & H1) (m2 & -> & H2). exists (m1 ++ m2).
  split; [by rewrite app_assoc | by apply Forall_app].
Qed.

Lemma sends_one (P : call -> Prop) (cs : list call) (c : call) :
  P c -> sends P cs (cs ++ [c]).
Proof. intros H. exists [c]. split; [done|]. by constructor. Qed.

Lemma answer_calls (llm : client) (user_input : string) (st : state) :
  calls (langchain_app.answer llm user_input st).2 =
    calls st ++ [request_of CommandLine st "default" user_input].
Proof.
  rewrite answer_eq. rewrite <- exchange_calls with (llm := llm).
  by destruct (handle_question _ _ _ _ _) as [[response|e] st'].
Qed.

Lemma loop_sends (llm : client) (lines : list string) (st : state) :
  sends (fun c => call_temperature c = (7 # 10)%Q)
        (calls st) (calls (langchain_app.loop llm lines st).2).
Proof.
  revert st. induction lines as [|line rest IH]; intros st.
  - apply sends_refl.
  - rewrite loop_cons. cbv zeta.
    destruct (String.eqb (lower line) "exit"); [apply sends_refl|].
    set (st0 := (print "Your question: " st).2).
    pose proof (answer_calls llm line st0) as Hc.
    destruct (langchain_app.answer llm line st0) as [[[]|e] st1]; simpl in Hc.
    + eapply sends_trans; [|apply IH]. rewrite Hc. by apply sends_one.
    + cbn [snd]. rewrite Hc. by apply sends_one.
Qed.

Lemma inject_nat_nonneg (n : nat) : (0 <= inject_Z (Z.of_nat n))%Q.
Proof. unfold Qle. simpl. lia. Qed.

Lemma slider_range (steps : nat) :
  (7 # 10 <= streamlit_app.slider (7 # 10) steps)%Q /\
  (streamlit_app.slider (7 # 10) steps <= 1)%Q.
Proof.
  unfold streamlit_app.slider. cbv zeta.
  pose proof (inject_nat_nonneg steps) as Hn.
  destruct (Qle_bool _ _) eqn:Hle.
  - apply Qle_bool_iff in Hle. split; [lra | done].
  - split; [lra | apply Qle_refl].
Qed.

(** C7. Every request of the command-line program is sent with the
    temperature 0.7, which lies between 0 and 1.  Every request of the
    browser script is sent with the value of its temperature slider, which
    lies between 0.7 and 1, hence between 0 and 1, and is 0.7 as long as
    the thumb has not been moved. *)
Theorem temperature_in_unit_interval :
  (forall (llm : client) (api_key : option string) (lines : list string) (st : state),
     sends (fun c => call_temperature c = (7 # 10)%Q)
           (calls st) (calls (langchain_app.program llm api_key lines st).2)) /\
  (0 <= 7 # 10)%Q /\ (7 # 10 <= 1)%Q /\
  (forall (llm : client) (w : streamlit_app.widgets) (b : streamlit_app.browser),
     sends (fun c =>
              call_temperature c =
                streamlit_app.slider (7 # 10) (streamlit_app.slider_steps w) /\
              (0 <= call_temperature c)%Q /\ (call_temperature c <= 1)%Q)
           (streamlit_app.requests b)
           (streamlit_app.requests (streamlit_app.main llm w b).2)) /\
  (streamlit_app.slider (7 # 10) 0 == 7 # 10)%Q.
Proof.
  split; [|split; [|split; [|split]]].
  - intros llm api_key lines st. unfold langchain_app.program.
    destruct (negb (truthy api_key)); [apply sends_refl|].
    unfold bind at 1. cbn [print].
    exact (loop_sends llm lines
             (print "Welcome to the history chatbot! Type 'exit' to end the conversation." st).2).
  - lra.
  - lra.
  - intros llm w b. unfold streamlit_app.main.
    destruct (negb (truthy _)); [apply sends_refl|].
    destruct (streamlit_app.reset_clicked w); [apply sends_refl|].
    destruct (truthy (streamlit_app.chat_input w)); [|apply sends_refl].
    match goal with
    | |- context [invoke llm ?conv ?input ?sid ?st] =>
        change (invoke llm conv input sid st)
          with (handle_question llm
                  (BrowserChat "gemini-1.5-flash"
                     (streamlit_app.slider (7 # 10) (streamlit_app.slider_steps w)) sid)
                  sid (default EmptyString (streamlit_app.chat_input w)) st);
        pose proof (exchange_calls llm
                  (BrowserChat "gemini-1.5-flash"
                     (streamlit_app.slider (7 # 10) (streamlit_app.slider_steps w)) sid)
                  sid (default EmptyString (streamlit_app.chat_input w)) st) as Hc
    end.
    destruct (handle_question _ _ _ _ _) as [[response|e] st']; cbn in Hc |- *;
      rewrite Hc; apply sends_one; cbn;
      pose proof (slider_range (streamlit_app.slider_steps w)) as [H1 H2];
      (split; [done | split; [lra | done]]).
  - reflexivity.
Qed.

(** ** How the front ends report a failed exchange *)

(** The command-line loop catches the exception and prints its text; the
    recorded turns stay as they were and the loop goes on. *)
Lemma answer_reports_error (llm : client) (user_input : string) (st : state) (e : exn) :
  llm (calls st) (request_of CommandLine st "default" user_input) = inr e ->
  exists st' : state,
    langchain_app.answer llm user_input st = (Ok tt, st') /\
    stdout st' =
      stdout st ++ ["Error: " +:+ str_exn e +:+ ", plz check your api key and try again"] /\
    forall s : string, history_of st' s = history_of st s.
Proof.
  intros Hllm. rewrite answer_eq.
  pose proof (exchange_raised llm CommandLine "default" user_input st e) as Hh.
  rewrite handle_question_eq in Hh |- *. cbv zeta in Hh |- *. rewrite Hllm in Hh |- *.
  eexists. split; [reflexivity|]. split; [done|]. intros s. by apply Hh.
Qed.

(** The browser script lets the exception out of [main]; the user's entry
    is already in the displayed messages, the recorded turns are as they
    were. *)
Lemma main_raises (llm : client) (w : streamlit_app.widgets) (b : streamlit_app.browser)
    (question : string) (e : exn) :
  truthy (streamlit_app.get_env_api_key (streamlit_app.env_key w) (streamlit_app.secrets w)) = true ->
  streamlit_app.reset_clicked w = false ->
  streamlit_app.chat_input w = Some question ->
  question <> EmptyString ->
  (forall (cs : list call) (c : call), llm cs c = inr e) ->
  exists b' : streamlit_app.browser,
    streamlit_app.main llm w b = (Raise e, b') /\
    streamlit_app.messages (streamlit_app.session b') =
      Some (default [] (streamlit_app.messages (streamlit_app.session b))
              ++ [streamlit_app.Entry "user" question]) /\
    forall s : string, streamlit_app.history_of b' s = streamlit_app.history_of b s.
Proof.
  intros Hkey Hreset Hinput Hq Hllm.
  rewrite (main_asks llm w b question Hkey Hreset Hinput Hq). cbv zeta.
  match goal with
  | |- context [handle_question llm ?f ?sid question ?st] =>
      pose proof (exchange_raised llm f sid question st e) as Hh;
      rewrite (handle_question_eq llm f sid question st) in Hh |- *
  end.
  cbv zeta in Hh |- *. rewrite Hllm in Hh |- *.
  eexists. split; [reflexivity|]. split; [done|].
  intros s. by apply Hh.
Qed.

(** ** Empty and whitespace-only questions *)

(** When [st.chat_input] returns nothing or the empty text, the script
    ends normally and has changed nothing that was recorded. *)
Lemma main_skips_empty (llm : client) (w : streamlit_app.widgets)
    (b : streamlit_app.browser) :
  truthy (streamlit_app.get_env_api_key (streamlit_app.env_key w) (streamlit_app.secrets w)) = true ->
  streamlit_app.reset_clicked w = false ->
  streamlit_app.chat_input w = None \/ streamlit_app.chat_input w = Some EmptyString ->
  exists b' : streamlit_app.browser,
    streamlit_app.main llm w b = (Ok streamlit_app.Done, b') /\
    streamlit_app.requests b' = streamlit_app.requests b /\
    streamlit_app.objects b' = streamlit_app.objects b /\
    (forall s : string, streamlit_app.history_of b' s = streamlit_app.history_of b s) /\
    default [] (streamlit_app.messages (streamlit_app.session b')) =
      default [] (streamlit_app.messages (streamlit_app.session b)).
Proof.
  intros Hkey Hreset Hinput.
  assert (truthy (streamlit_app.chat_input w) = false) as Hfalse
    by (by destruct Hinput as [-> | ->]).
  rewrite (main_skips llm w b Hkey Hreset Hfalse).
  eexists. split; [reflexivity|]. done.
Qed.

(** Any other text the browser script gets is sent to the model. *)
Lemma main_sends (llm : client) (w : streamlit_app.widgets) (b : streamlit_app.browser)
    (question : string) :
  truthy (streamlit_app.get_env_api_key (streamlit_app.env_key w) (streamlit_app.secrets w)) = true ->
  streamlit_app.reset_clicked w = false ->
  streamlit_app.chat_input w = Some question ->
  question <> EmptyString ->
  exists c : call,
    streamlit_app.requests (streamlit_app.main llm w b).2 =
      streamlit_app.requests b ++ [c] /\
    call_messages c =
      Message system langchain_app.system_template
        :: streamlit_app.history_of b
             (default (streamlit_app.uuid4 w)
                (streamlit_app.session_id (streamlit_app.session b)))
           ++ [Message human question].
Proof.
  intros Hkey Hreset Hinput Hq.
  rewrite (main_asks llm w b question Hkey Hreset Hinput Hq). cbv zeta.
  match goal with
  | |- context [handle_question llm ?f ?sid question ?st] =>
      pose proof (exchange_calls llm f sid question st) as Hc;
      exists (request_of f st sid question)
  end.
  split; [|done].
  by destruct (handle_question _ _ _ _ _) as [[response|e] st'].
Qed.

(** Any line the loop reads that does not lower to "exit" is sent to the
    model as the question of session "default". *)
Lemma loop_asks (llm : client) (line : string) (rest : list string) (st : state) :
  lower line <> "exit" ->
  exists more : list call,
    calls (langchain_app.loop llm (line :: rest) st).2 =
      calls st ++ request_of CommandLine st "default" line :: more.
Proof.
  intros Hline. rewrite loop_cons. cbv zeta.
  destruct (String.eqb_spec (lower line) "exit") as [|_]; [done|].
  set (st0 := (print "Your question: " st).2).
  pose proof (answer_calls llm line st0) as Hc.
  change (request_of CommandLine st0 "default" line)
    with (request_of CommandLine st "default" line) in Hc.
  change (calls st0) with (calls st) in Hc.
  destruct (langchain_app.answer llm line st0) as [[[]|e] st1]; cbn [snd] in Hc |- *.
  - destruct (loop_sends llm rest st1) as (more & -> & _).
    exists more. by rewrite Hc, <- app_assoc.
  - exists []. by rewrite Hc.
Qed.

(** C3, as amended.  Only the browser script tests the question, and only
    for emptiness: when [st.chat_input] returns nothing or the empty text,
    [main] ends normally, without an error, without a request to the model,
    and with the history objects, the recorded turns of every session and
    the displayed messages as they were.  Every other text it gets,
    whitespace-only or not, and every line of the command-line loop that
    does not lower to "exit", the empty line included, is sent to the model
    as a question. *)
Theorem blank_question_handling :
  (forall (llm : client) (w : streamlit_app.widgets) (b : streamlit_app.browser),
     truthy (streamlit_app.get_env_api_key (streamlit_app.env_key w) (streamlit_app.secrets w)) = true ->
     streamlit_app.reset_clicked w = false ->
     streamlit_app.chat_input w = None \/ streamlit_app.chat_input w = Some EmptyString ->
     exists b' : streamlit_app.browser,
       streamlit_app.main llm w b = (Ok streamlit_app.Done, b') /\
       streamlit_app.requests b' = streamlit_app.requests b /\
       streamlit_app.objects b' = streamlit_app.objects b /\
       (forall s : string, streamlit_app.history_of b' s = streamlit_app.history_of b s) /\
       default [] (streamlit_app.messages (streamlit_app.session b')) =
         default [] (streamlit_app.messages (streamlit_app.session b))) /\
  (forall (llm : client) (w : streamlit_app.widgets) (b : streamlit_app.browser)
          (question : string),
     truthy (streamlit_app.get_env_api_key (streamlit_app.env_key w) (streamlit_app.secrets w)) = true ->
     streamlit_app.reset_clicked w = false ->
     streamlit_app.chat_input w = Some question ->
     question <> EmptyString ->
     exists c : call,
       streamlit_app.requests (streamlit_app.main llm w b).2 =
         streamlit_app.requests b ++ [c] /\
       call_messages c =
         Message system langchain_app.system_template
           :: streamlit_app.history_of b
                (default (streamlit_app.uuid4 w)
                   (streamlit_app.session_id (streamlit_app.session b)))
              ++ [Message human question]) /\
  (forall (llm : client) (line : string) (rest : list string) (st : state),
     lower line <> "exit" ->
     exists more : list call,
       calls (langchain_app.loop llm (line :: rest) st).2 =
         calls st ++ request_of CommandLine st "default" line :: more).
Proof.
  split; [|split].
  - exact main_skips_empty.
  - exact main_sends.
  - exact loop_asks.
Qed.

(** C3, as stated, fails.  The empty line in the command-line program and a
    question of three spaces in the browser script are both whitespace-only,
    and both are answered: the exchange returns the reply instead of
    raising, one request reaches the model, and the two turns are
    recorded. *)
Lemma blank_question_is_answered :
  whitespace_only EmptyString = true /\
  (handle_question (answering akbar_reply) CommandLine "default" EmptyString
     langchain_app.initial).1 = Ok (Message ai akbar_reply) /\
  history_of
    (handle_question (answering akbar_reply) CommandLine "default" EmptyString
       langchain_app.initial).2 "default" =
    [Message human EmptyString; Message ai akbar_reply] /\
  length (calls
    (langchain_app.loop (answering akbar_reply) [EmptyString; "exit"]
       langchain_app.initial).2) = 1 /\
  whitespace_only "   " = true /\
  (streamlit_app.main (answering akbar_reply) spaces_question streamlit_app.initial).1 =
    Ok streamlit_app.Done /\
  streamlit_app.history_of
    (streamlit_app.main (answering akbar_reply) spaces_question streamlit_app.initial).2 "u1" =
    [Message human "   "; Message ai akbar_reply] /\
  length (streamlit_app.requests
    (streamlit_app.main (answering akbar_reply) spaces_question streamlit_app.initial).2) = 1.
Proof. vm_compute. repeat split. Qed.

(** ** The theorems at concrete inputs *)

Ltac by_evaluation :=
  lazymatch goal with
  | |- ?P => apply (bool_decide_unpack P); vm_compute; exact I
  end.

Lemma handle_question_success_witness :
  wf langchain_app.initial /\
  history_of first_question.2 "s1" =
    history_of langchain_app.initial "s1"
      ++ [Message human "Who was Akbar?"; Message ai akbar_reply] /\
  length (history_of first_question.2 "s1") =
    length (history_of langchain_app.initial "s1") + 2 /\
  take (length (history_of langchain_app.initial "s1")) (history_of first_question.2 "s1") =
    history_of langchain_app.initial "s1" /\
  msg_role (Message ai akbar_reply) = ai /\
  answering akbar_reply (calls langchain_app.initial)
    (request_of CommandLine langchain_app.initial "s1" "Who was Akbar?") =
    inl (msg_content (Message ai akbar_reply)).
Proof.
  assert (wf langchain_app.initial) as Hwf by by_evaluation.
  split; [exact Hwf|].
  apply (handle_question_success (answering akbar_reply) CommandLine "s1" "Who was Akbar?"
           langchain_app.initial first_question.2 (Message ai akbar_reply) Hwf).
  vm_compute. reflexivity.
Defined.

Lemma prompt_assembly_witness :
  format_messages (prompt_with langchain_app.system_template)
    (chain_inputs [Message human "Who was Akbar?"; Message ai akbar_reply] "And his son?") =
    Ok ([Message system langchain_app.system_template]
          ++ [Message human "Who was Akbar?"; Message ai akbar_reply]
          ++ [Message human "And his son?"]) /\
  langchain_app.prompt_template = prompt_with langchain_app.system_template /\
  (forall (model_name : string) (temperature : Q) (session_id : string),
     chain_prompt (runnable
       (streamlit_app.build_conversation model_name temperature session_id)) =
     prompt_with streamlit_app.system_template) /\
  brace_free langchain_app.system_template = true /\
  brace_free streamlit_app.system_template = true.
Proof.
  apply (prompt_assembly langchain_app.system_template
           [Message human "Who was Akbar?"; Message ai akbar_reply] "And his son?").
  reflexivity.
Defined.

Lemma handle_question_failure_witness :
  exists st' : state,
    handle_question (failing quota_exceeded) CommandLine "s1" "Who was Ashoka?"
      first_question.2 = (Raise quota_exceeded, st') /\
    history_of st' "s1" = history_of first_question.2 "s1" /\
    length (history_of st' "s1") = length (history_of first_question.2 "s1") /\
    (forall s : string, history_of st' s = history_of first_question.2 s).
Proof.
  apply (handle_question_failure (failing quota_exceeded) CommandLine "s1" "Who was Ashoka?"
           first_question.2 quota_exceeded).
  reflexivity.
Defined.

Lemma session_isolation_witness :
  wf two_sessions /\
  history_of
    (handle_question (answering akbar_reply) CommandLine "s1" "And his son?" two_sessions).2
    "s2" = history_of two_sessions "s2" /\
  forall (r : nat) (ms : list message),
    store two_sessions !! "s1" = Some r ->
    history_of (add_messages r ms two_sessions).2 "s2" = history_of two_sessions "s2".
Proof.
  assert (wf two_sessions) as Hwf by by_evaluation.
  split; [exact Hwf|].
  apply (session_isolation (answering akbar_reply) CommandLine "s1" "s2" "And his son?"
           two_sessions Hwf).
  discriminate.
Defined.

Lemma exit_ends_loop_witness :
  langchain_app.loop (answering akbar_reply) ["EXIT"; "Who was Akbar?"] two_sessions =
    (Ok tt,
     State (store two_sessions) (heap two_sessions) (calls two_sessions)
           (stdout two_sessions ++ ["Your question: "; "Goodbye!"])) /\
  calls (langchain_app.loop (answering akbar_reply) ["EXIT"; "Who was Akbar?"] two_sessions).2 =
    calls two_sessions /\
  forall s : string,
    history_of
      (langchain_app.loop (answering akbar_reply) ["EXIT"; "Who was Akbar?"] two_sessions).2 s =
    history_of two_sessions s.
Proof.
  apply (exit_ends_loop (answering akbar_reply) "EXIT" ["Who was Akbar?"] two_sessions).
  reflexivity.
Defined.

Lemma blank_question_handling_witness :
  (exists b' : streamlit_app.browser,
     streamlit_app.main (answering akbar_reply) no_question streamlit_app.initial =
       (Ok streamlit_app.Done, b') /\
     streamlit_app.requests b' = streamlit_app.requests streamlit_app.initial /\
     streamlit_app.objects b' = streamlit_app.objects streamlit_app.initial /\
     (forall s : string,
        streamlit_app.history_of b' s = streamlit_app.history_of streamlit_app.initial s) /\
     default [] (streamlit_app.messages (streamlit_app.session b')) =
       default [] (streamlit_app.messages (streamlit_app.session streamlit_app.initial))) /\
  (exists c : call,
     streamlit_app.requests
       (streamlit_app.main (answering akbar_reply) spaces_question streamlit_app.initial).2 =
       streamlit_app.requests streamlit_app.initial ++ [c] /\
     call_messages c =
       Message system langchain_app.system_template
         :: streamlit_app.history_of streamlit_app.initial
              (default (streamlit_app.uuid4 spaces_question)
                 (streamlit_app.session_id (streamlit_app.session streamlit_app.initial)))
            ++ [Message human "   "]) /\
  (exists more : list call,
     calls (langchain_app.loop (answering akbar_reply) [EmptyString; "exit"]
              langchain_app.initial).2 =
       calls langchain_app.initial
         ++ request_of CommandLine langchain_app.initial "default" EmptyString :: more).
Proof.
  destruct blank_question_handling as (Hskip & Hsend & Hloop).
  split; [|split].
  - apply (Hskip (answering akbar_reply) no_question streamlit_app.initial).
    + reflexivity.
    + reflexivity.
    + right. reflexivity.
  - apply (Hsend (answering akbar_reply) spaces_question streamlit_app.initial "   ").
    + reflexivity.
    + reflexivity.
    + reflexivity.
    + discriminate.
  - apply (Hloop (answering akbar_reply) EmptyString ["exit"] langchain_app.initial).
    discriminate.
Defined.

(** ** The scenarios of the specification *)

(** Scenario A: a first question on an empty store. *)
Example scenario_a :
  first_question.1 = Ok (Message ai akbar_reply) /\
  history_of first_question.2 "s1" =
    [Message human "Who was Akbar?"; Message ai akbar_reply].
Proof. vm_compute. done. Qed.

(** Scenario C: two sessions, one question each. *)
Example scenario_c :
  size (store two_sessions) = 2 /\
  length (heap two_sessions) = 2 /\
  history_of two_sessions "s1" =
    [Message human "Who was Akbar?"; Message ai akbar_reply] /\
  history_of two_sessions "s2" =
    [Message human "Who was Ashoka?"; Message ai "Ashoka was a Mauryan emperor..."].
Proof. vm_compute. done. Qed.

(** Scenario D: the provider reports an exhausted quota. *)
Example scenario_d :
  (handle_question (failing quota_exceeded) CommandLine "s1" "Who was Ashoka?"
     first_question.2).1 = Raise quota_exceeded /\
  history_of
    (handle_question (failing quota_exceeded) CommandLine "s1" "Who was Ashoka?"
       first_question.2).2 "s1" = history_of first_question.2 "s1" /\
  (langchain_app.answer (failing quota_exceeded) "Who was Ashoka?" first_question.2).1 = Ok tt /\
  last (stdout
    (langchain_app.answer (failing quota_exceeded) "Who was Ashoka?" first_question.2).2) =
    Some "Error: quota exceeded, plz check your api key and try again".
Proof. vm_compute. done. Qed.

(** The loop treats every case variant of "exit" alike, and nothing else. *)
Example lower_examples :
  lower "EXIT" = "exit" /\ lower "Exit" = "exit" /\ lower "eXiT" = "exit" /\
  lower " exit" <> "exit" /\ lower "exit now" <> "exit".
Proof. vm_compute. repeat split; discriminate. Qed.

(** * Further properties of the command-line program *)

Lemma answer_ok (llm : client) (user_input : string) (st : state) :
  (langchain_app.answer llm user_input st).1 = Ok tt.
Proof.
  rewrite answer_eq.
  by destruct (handle_question _ _ _ _ _) as [[response|e] st'].
Qed.

Lemma loop_step (llm : client) (line : string) (rest : list string) (st : state) :
  langchain_app.loop llm (line :: rest) st =
    if is_exit line
    then print "Goodbye!" (print "Your question: " st).2
    else langchain_app.loop llm rest
           (langchain_app.answer llm line (print "Your question: " st).2).2.
Proof.
  rewrite loop_cons. cbv zeta. unfold is_exit.
  destruct (String.eqb (lower line) "exit"); [done|].
  pose proof (answer_ok llm line (print "Your question: " st).2) as Hok.
  destruct (langchain_app.answer _ _ _) as [[[]|e] st1]; [done|discriminate].
Qed.




(** X2. A run of the loop depends on the lines before the first one that
    lowers to "exit" and on whether there is such a line, and on nothing
    else: how that line is spelled and what follows it make no difference
    to the result, the output, the histories or the requests. *)
Theorem loop_reads_until_exit (llm : client) (lines : list string) (st : state) :
  langchain_app.loop llm lines st =
    langchain_app.loop llm (asked lines ++ (if has_exit lines then ["exit"] else [])) st.
Proof.
  revert st. induction lines as [|line rest IH]; intros st; [done|].
  cbn [asked has_exit existsb]. destruct (is_exit line) eqn:Hline.
  - cbn [orb app]. rewrite !loop_step. by rewrite Hline.
  - cbn [orb app]. rewrite !loop_step. rewrite Hline. apply IH.
Qed.

Lemma loop_calls_length (llm : client) (lines : list string) (st : state) :
  length (calls (langchain_app.loop llm lines st).2) =
    length (calls st) + length (asked lines).
Proof.
  revert st. induction lines as [|line rest IH]; intros st.
  - cbn. lia.
  - rewrite loop_step. cbn [asked]. destruct (is_exit line).
    + cbn. lia.
    + rewrite IH, answer_calls, length_app. cbn. lia.
Qed.

Lemma loop_stdout_length (llm : client) (lines : list string) (st : state) :
  length (stdout (langchain_app.loop llm lines st).2) =
    length (stdout st) + 2 * length (asked lines) + (if has_exit lines then 2 else 1).
Proof.
  revert st. induction lines as [|line rest IH]; intros st.
  - cbn. rewrite length_app. cbn. lia.
  - rewrite loop_step. cbn [asked has_exit existsb]. destruct (is_exit line).
    + cbn. rewrite !length_app. cbn. lia.
    + rewrite IH. cbn [orb length].
      assert (length (stdout (langchain_app.answer llm line (print "Your question: " st).2).2)
              = length (stdout st) + 2) as ->; [|fold (has_exit rest); lia].
      rewrite answer_eq.
      pose proof (exchange_calls llm CommandLine "default" line (print "Your question: " st).2) as _.
      rewrite handle_question_eq. cbv zeta.
      destruct (llm _ _); cbn; rewrite !length_app; cbn; lia.
Qed.

(** X3. The loop sends exactly one request per line it treats as a
    question, answered or not, and prints two pieces of output for each
    (the input prompt and either the answer or the error), then the prompt
    and the farewell, or the prompt alone when the input ends without
    "exit". *)
Theorem loop_one_request_per_question (llm : client) (lines : list string) (st : state) :
  length (calls (langchain_app.loop llm lines st).2) =
    length (calls st) + length (asked lines) /\
  length (stdout (langchain_app.loop llm lines st).2) =
    length (stdout st) + 2 * length (asked lines) + (if has_exit lines then 2 else 1).
Proof. split; [apply loop_calls_length | apply loop_stdout_length]. Qed.

Lemma lower_ascii_e (c : ascii) :
  lower_ascii c = "e"%char -> c = "e"%char \/ c = "E"%char.
Proof.
  destruct c as [[] [] [] [] [] [] [] []]; vm_compute; intros H;
    first [discriminate H | by left | by right].
Qed.

Lemma lower_ascii_x (c : ascii) :
  lower_ascii c = "x"%char -> c = "x"%char \/ c = "X"%char.
Proof.
  destruct c as [[] [] [] [] [] [] [] []]; vm_compute; intros H;
    first [discriminate H | by left | by right].
Qed.

Lemma lower_ascii_i (c : ascii) :
  lower_ascii c = "i"%char -> c = "i"%char \/ c = "I"%char.
Proof.
  destruct c as [[] [] [] [] [] [] [] []]; vm_compute; intros H;
    first [discriminate H | by left | by right].
Qed.

Lemma lower_ascii_t (c : ascii) :
  lower_ascii c = "t"%char -> c = "t"%char \/ c = "T"%char.
Proof.
  destruct c as [[] [] [] [] [] [] [] []]; vm_compute; intros H;
    first [discriminate H | by left | by right].
Qed.

(** X4. The lines that end the loop are the sixteen spellings of "exit" in
    upper and lower case, and no others: a line with a space before or
    after the word, or with more text, is a question. *)
Theorem exit_spellings (line : string) :
  is_exit line = true <-> In line exit_variants.
Proof.
  unfold is_exit. rewrite String.eqb_eq. split.
  - intros H.
    destruct line as [|c1 [|c2 [|c3 [|c4 [|c5 rest]]]]]; try discriminate H.
    cbn [lower] in H. injection H as H1 H2 H3 H4.
    apply lower_ascii_e in H1. apply lower_ascii_x in H2.
    apply lower_ascii_i in H3. apply lower_ascii_t in H4.
    destruct H1 as [-> | ->], H2 as [-> | ->], H3 as [-> | ->], H4 as [-> | ->];
      unfold exit_variants; cbn [In]; repeat first [left; reflexivity | right].
  - unfold exit_variants. cbn [In]. intros H.
    repeat (destruct H as [<- | H]; [reflexivity|]). destruct H.
Qed.

Lemma loop_stdout_extends (llm : client) (lines : list string) (st : state) :
  exists out : list string, stdout (langchain_app.loop llm lines st).2 = stdout st ++ out.
Proof.
  revert st. induction lines as [|line rest IH]; intros st.
  - exists ["Your question: "]. reflexivity.
  - rewrite loop_cons. cbv zeta.
    destruct (String.eqb (lower line) "exit").
    + exists ["Your question: "; "Goodbye!"]. cbn. by rewrite <- app_assoc.
    + assert (exists out, stdout (langchain_app.answer llm line
                                    (print "Your question: " st).2).2
                          = stdout st ++ out) as [out1 H1].
      { rewrite answer_eq, handle_question_eq. cbv zeta.
        destruct (llm _ _); cbn; rewrite <- app_assoc; by eexists. }
      destruct (langchain_app.answer _ _ _) as [[[]|e] st1]; cbn [snd] in H1 |- *.
      * destruct (IH st1) as [out2 H2]. exists (out1 ++ out2).
        by rewrite H2, H1, app_assoc.
      * by exists out1.
Qed.

(** X5. The key test of the command-line program: without a key in the
    environment (absent or empty) the program raises [RuntimeError] with
    the advice to set one, before printing, reading or asking anything,
    whatever the lines and the model client; with a key the welcome line is
    the first thing it prints, and it sends no more than one request per
    line treated as a question. *)
Theorem program_outcome (llm : client) (api_key : option string) (lines : list string)
    (st : state) :
  if truthy api_key
  then (exists out : list string,
          stdout (langchain_app.program llm api_key lines st).2 =
            stdout st
              ++ "Welcome to the history chatbot! Type 'exit' to end the conversation."
                 :: out) /\
       length (calls (langchain_app.program llm api_key lines st).2) <=
         length (calls st) + length (asked lines)
  else langchain_app.program llm api_key lines st =
         (Raise (RuntimeError "GOOGLE_API_KEY is not set. In Command Prompt, run: set GOOGLE_API_KEY=your_key or use setx for persistence."),
          st).
Proof.
  unfold langchain_app.program. destruct (truthy api_key); cbn [negb]; [|done].
  unfold bind. cbn [print].
  match goal with
  | |- context [langchain_app.loop llm lines ?st0] =>
      destruct (loop_stdout_extends llm lines st0) as [out Hout];
      destruct (loop_sends llm lines st0) as (more & Hcalls & _);
      pose proof (loop_calls_length llm lines st0) as Hlen
  end.
  cbn [calls stdout] in Hout, Hlen. split.
  - exists out. by rewrite Hout, <- app_assoc.
  - lia.
Qed.


(** The text of a [KeyError]: its key as [repr] shows it. *)
Example str_key_error :
  str_exn (KeyError "default") = "'default'" /\
  str_exn (KeyError "a'b") = String double_quote ("a'b" +:+ String double_quote EmptyString) /\
  str_exn (KeyError (String backslash "n")) =
    String "'" (String backslash (String backslash "n'")).
Proof. vm_compute. done. Qed.

(** ** Histories are made of question/answer pairs *)

Lemma alternating_app_bounded (n : nat) (h1 h2 : list message) :
  length h1 <= n ->
  alternating h1 = true ->
  alternating (h1 ++ h2) = alternating h2.
Proof.
  revert h1. induction n as [|n IH]; intros h1 Hlen Halt.
  - destruct h1; [done | simpl in Hlen; lia].
  - destruct h1 as [|m1 [|m2 rest]]; [done | discriminate |].
    cbn [alternating app] in Halt |- *.
    apply andb_prop in Halt as [Hroles Hrest]. rewrite Hroles. cbn [andb].
    apply IH; [simpl in Hlen; lia | done].
Qed.

Lemma alternating_app (h1 h2 : list message) :
  alternating h1 = true -> alternating (h1 ++ h2) = alternating h2.
Proof. by apply (alternating_app_bounded (length h1)). Qed.

Lemma alternating_even_bounded (n : nat) (h : list message) :
  length h <= n -> alternating h = true -> Nat.even (length h) = true.
Proof.
  revert h. induction n as [|n IH]; intros h Hlen Halt.
  - destruct h; [done | simpl in Hlen; lia].
  - destruct h as [|m1 [|m2 rest]]; [done | discriminate |].
    cbn [alternating] in Halt. apply andb_prop in Halt as [_ Hrest].
    cbn [length Nat.even]. apply IH; [simpl in Hlen; lia | done].
Qed.

Lemma exchange_history (llm : client) (f : front_end) (sid question : string)
    (st : state) (s : string) :
  wf st ->
  history_of (handle_question llm f sid question st).2 s =
    history_of st s ++
    (if decide (s = sid)
     then match llm (calls st) (request_of f st sid question) with
          | inl reply => [Message human question; Message ai reply]
          | inr _ => []
          end
     else []).
Proof.
  intros Hwf.
  destruct (llm (calls st) (request_of f st sid question)) as [reply|e] eqn:Hllm.
  - rewrite (exchange_answered llm f sid question st reply s Hwf Hllm).
    destruct (decide (s = sid)) as [->|]; [done | by rewrite app_nil_r].
  - rewrite (exchange_raised llm f sid question st e s Hllm).
    destruct (decide (s = sid)); by rewrite app_nil_r.
Qed.

(** X7. An exchange keeps every history a sequence of pairs, a turn of the
    user followed by a turn of the assistant; such a history has an even
    number of turns.  This holds for both front ends, whether the model
    client answers or raises. *)
Theorem exchange_keeps_pairs (llm : client) (f : front_end) (sid question : string)
    (st : state) (s : string) :
  wf st ->
  alternating (history_of st s) = true ->
  alternating (history_of (handle_question llm f sid question st).2 s) = true /\
  Nat.even (length (history_of (handle_question llm f sid question st).2 s)) = true.
Proof.
  intros Hwf Halt.
  assert (alternating (history_of (handle_question llm f sid question st).2 s) = true) as H.
  { rewrite exchange_history by done. rewrite alternating_app by done.
    destruct (decide (s = sid)); [|done]. by destruct (llm _ _). }
  split; [done|]. by apply (alternating_even_bounded _ _ (Nat.le_refl _)).
Qed.

Lemma single_session_answer (llm : client) (user_input : string) (st : state) :
  single_session st -> single_session (langchain_app.answer llm user_input st).2.
Proof.
  intros H. rewrite answer_eq.
  apply (single_session_exchange llm user_input) in H.
  by destruct (handle_question _ _ _ _ _) as [[response|e] st'].
Qed.

Lemma answer_history (llm : client) (user_input : string) (st : state) :
  wf st ->
  history_of (langchain_app.answer llm user_input st).2 "default" =
    history_of st "default" ++
    match llm (calls st) (request_of CommandLine st "default" user_input) with
    | inl reply => [Message human user_input; Message ai reply]
    | inr _ => []
    end.
Proof.
  intros Hwf.
  pose proof (exchange_history llm CommandLine "default" user_input st "default" Hwf) as H.
  rewrite decide_True in H by done. rewrite <- H. rewrite answer_eq.
  by destruct (handle_question _ _ _ _ _) as [[response|e] st'].
Qed.

Lemma history_of_print (line : string) (st : state) (s : string) :
  history_of (print line st).2 s = history_of st s.
Proof. reflexivity. Qed.

Lemma loop_nil (llm : client) (st : state) :
  langchain_app.loop llm [] st = (Raise EOFError, (print "Your question: " st).2).
Proof. reflexivity. Qed.

Lemma loop_pairs (llm : client) (lines : list string) (st : state) :
  single_session st ->
  alternating (history_of st "default") = true ->
  alternating (history_of (langchain_app.loop llm lines st).2 "default") = true /\
  length (history_of (langchain_app.loop llm lines st).2 "default") <=
    length (history_of st "default") + 2 * length (asked lines).
Proof.
  revert st. induction lines as [|line rest IH]; intros st Hone Halt.
  - rewrite loop_nil. cbn [snd asked length]. rewrite history_of_print.
    split; [done | lia].
  - rewrite loop_step. cbn [asked]. destruct (is_exit line).
    + rewrite !history_of_print. split; [done | lia].
    + set (st0 := (print "Your question: " st).2).
      assert (single_session st0) as Hone0 by done.
      pose proof (answer_history llm line st0 (single_session_wf st0 Hone0)) as Hh.
      change (history_of st0 "default") with (history_of st "default") in Hh.
      destruct (IH (langchain_app.answer llm line st0).2) as [H1 H2].
      * by apply single_session_answer.
      * rewrite Hh, alternating_app by done. by destruct (llm _ _).
      * split; [done|]. etransitivity; [exact H2|].
        rewrite Hh, length_app. cbn [length]. destruct (llm _ _); cbn; lia.
Qed.

(** X8. At the end of any run of the command-line program the history of
    "default" is a sequence of question/answer pairs, and it has at most two
    turns per line that was treated as a question (fewer when the model
    client raised on some of them). *)
Theorem cli_history_pairs (llm : client) (api_key : option string) (lines : list string) :
  alternating
    (history_of (langchain_app.program llm api_key lines langchain_app.initial).2
       "default") = true /\
  length
    (history_of (langchain_app.program llm api_key lines langchain_app.initial).2
       "default") <= 2 * length (asked lines).
Proof.
  assert (history_of langchain_app.initial "default" = []) as Hinit by reflexivity.
  unfold langchain_app.program. destruct (negb (truthy api_key)).
  - unfold raise. cbn [snd]. rewrite Hinit. cbn. split; [done | lia].
  - unfold bind. cbn [print].
    match goal with
    | |- context [langchain_app.loop llm lines ?st0] =>
        destruct (loop_pairs llm lines st0) as [H1 H2]; [by left | done |];
        change (history_of st0 "default")
          with (history_of langchain_app.initial "default") in H2
    end.
    rewrite Hinit in H2. cbn [length] in H2. split; [done | lia].
Qed.

(** * Further properties of the browser script *)

Lemma main_eq (llm : client) (w : streamlit_app.widgets) (b : streamlit_app.browser) :
  streamlit_app.main llm w b =
    if negb (has_key w) then (Ok streamlit_app.Stopped, b)
    else if streamlit_app.reset_clicked w
    then (Ok streamlit_app.Rerun,
          streamlit_app.Browser (streamlit_app.Session None None None)
            (streamlit_app.objects b) (streamlit_app.requests b))
    else
      let shown := default [] (streamlit_app.messages (streamlit_app.session b)) in
      if truthy (streamlit_app.chat_input w) then
        let question := default EmptyString (streamlit_app.chat_input w) in
        match handle_question llm (chat_of w b) (current_id w b) question (state_of b) with
        | (Ok response, st) =>
            (Ok streamlit_app.Done,
             streamlit_app.Browser
               (streamlit_app.Session (Some (current_id w b)) (Some (store st))
                  (Some ((shown ++ [streamlit_app.Entry "user" question])
                           ++ [streamlit_app.Entry "assistant" (msg_content response)])))
               (heap st) (calls st))
        | (Raise e, st) =>
            (Raise e,
             streamlit_app.Browser
               (streamlit_app.Session (Some (current_id w b)) (Some (store st))
                  (Some (shown ++ [streamlit_app.Entry "user" question])))
               (heap st) (calls st))
        end
      else
        (Ok streamlit_app.Done,
         streamlit_app.Browser
           (streamlit_app.Session (Some (current_id w b))
              (Some (default ∅ (streamlit_app.history_store (streamlit_app.session b))))
              (Some shown))
           (streamlit_app.objects b) (streamlit_app.requests b)).
Proof. reflexivity. Qed.

Lemma has_key_eq (w : streamlit_app.widgets) :
  has_key w =
    truthy (streamlit_app.env_key w) ||
    match streamlit_app.secrets w with
    | Some found => truthy found
    | None => false
    end.
Proof.
  unfold has_key, streamlit_app.get_env_api_key.
  destruct (truthy (streamlit_app.env_key w)) eqn:Henv; [done|].
  by destruct (streamlit_app.secrets w).
Qed.

(** X9. A run of the browser script stops at once, leaving the session as
    it is, exactly when no key is found: the environment has none (or an
    empty one) and reading the secrets raises or yields none.  In that case
    neither the reset button nor a typed question has any effect. *)
Theorem main_stops_without_key (llm : client) (w : streamlit_app.widgets)
    (b : streamlit_app.browser) :
  ((streamlit_app.main llm w b).1 = Ok streamlit_app.Stopped <->
   truthy (streamlit_app.env_key w) = false /\
   match streamlit_app.secrets w with
   | Some found => truthy found = false
   | None => True
   end) /\
  (if has_key w then True else streamlit_app.main llm w b = (Ok streamlit_app.Stopped, b)).
Proof.
  rewrite main_eq. pose proof (has_key_eq w) as Hk.
  destruct (has_key w); cbn [negb].
  - split; [|done]. split.
    + intros H. exfalso.
      destruct (streamlit_app.reset_clicked w); [discriminate H|]. cbv zeta in H.
      destruct (truthy (streamlit_app.chat_input w)); [|discriminate H].
      destruct (handle_question _ _ _ _ _) as [[response|e] st]; discriminate H.
    + intros [H1 H2]. rewrite H1 in Hk.
      destruct (streamlit_app.secrets w); [by rewrite H2 in Hk | done].
  - split; [|done]. split; [|done]. intros _.
    symmetry in Hk. apply orb_false_elim in Hk as [H1 H2].
    split; [done|]. by destruct (streamlit_app.secrets w).
Qed.

(** X10. A run sends at most one request: exactly one when a key is found,
    the reset button was not pressed and the chat input is a non-empty
    text, and none in every other case. *)
Theorem main_request_count (llm : client) (w : streamlit_app.widgets)
    (b : streamlit_app.browser) :
  length (streamlit_app.requests (streamlit_app.main llm w b).2) =
    length (streamlit_app.requests b) +
    (if has_key w && negb (streamlit_app.reset_clicked w)
          && truthy (streamlit_app.chat_input w)
     then 1 else 0).
Proof.
  rewrite main_eq. destruct (has_key w); cbn [negb andb]; [|cbn [snd]; lia].
  destruct (streamlit_app.reset_clicked w); cbn [negb andb];
    [cbn [snd streamlit_app.requests]; lia|].
  cbv zeta. destruct (truthy (streamlit_app.chat_input w));
    [|cbn [snd streamlit_app.requests]; lia].
  pose proof (exchange_calls llm (chat_of w b) (current_id w b)
                (default EmptyString (streamlit_app.chat_input w)) (state_of b)) as Hc.
  destruct (handle_question _ _ _ _ _) as [[response|e] st]; cbn in Hc |- *;
    rewrite Hc, length_app; cbn; lia.
Qed.

Lemma exchange_store (llm : client) (f : front_end) (sid question : string) (st : state) :
  store (handle_question llm f sid question st).2 = store (opened st sid).2.
Proof. rewrite handle_question_eq. cbv zeta. by destruct (llm _ _). Qed.

Lemma opened_dom (st : state) (sid : string) :
  dom (store (opened st sid).2) = {[ sid ]} ∪ dom (store st).
Proof.
  unfold opened. destruct (store st !! sid) as [r|] eqn:H; simpl.
  - symmetry. apply subseteq_union_1_L, singleton_subseteq_l.
    by apply (elem_of_dom_2 _ _ r).
  - apply dom_insert_L.
Qed.

Lemma exchange_returned (llm : client) (f : front_end) (sid question : string)
    (st st' : state) (response : message) :
  wf st ->
  handle_question llm f sid question st = (Ok response, st') ->
  msg_role response = ai /\
  history_of st' sid = history_of st sid ++ [Message human question; response].
Proof.
  intros Hwf Hrun.
  pose proof (exchange_history llm f sid question st sid Hwf) as Hh.
  rewrite decide_True in Hh by done. rewrite Hrun in Hh. cbn [snd] in Hh.
  rewrite handle_question_eq in Hrun. cbv zeta in Hrun.
  destruct (llm _ _) as [reply|e]; [|discriminate]. by injection Hrun as <- _.
Qed.

Lemma exchange_raising (llm : client) (f : front_end) (sid question : string)
    (st st' : state) (e : exn) :
  handle_question llm f sid question st = (Raise e, st') ->
  llm (calls st) (request_of f st sid question) = inr e /\
  forall s : string, history_of st' s = history_of st s.
Proof.
  intros Hrun.
  destruct (llm (calls st) (request_of f st sid question)) as [reply|e'] eqn:Hllm.
  - rewrite handle_question_eq in Hrun. cbv zeta in Hrun. rewrite Hllm in Hrun.
    discriminate.
  - pose proof (exchange_raised llm f sid question st e') as Hh.
    rewrite Hrun in Hh. cbn [snd] in Hh.
    rewrite handle_question_eq in Hrun. cbv zeta in Hrun. rewrite Hllm in Hrun.
    injection Hrun as -> _. split; [done|]. intros s. by apply Hh.
Qed.

Lemma own_key_only_main (llm : client) (w : streamlit_app.widgets)
    (b : streamlit_app.browser) :
  own_key_only b -> own_key_only (streamlit_app.main llm w b).2.
Proof.
  intros Hown.
  assert (dom (default ∅ (streamlit_app.history_store (streamlit_app.session b)))
            ⊆ ({[ current_id w b ]} : gset string)) as Hdom.
  { unfold current_id.
    destruct (streamlit_app.history_store (streamlit_app.session b)) as [hs|] eqn:Hs.
    - destruct (Hown hs Hs) as (sid & -> & Hsub). done.
    - cbn. rewrite dom_empty_L. set_solver. }
  rewrite main_eq. destruct (negb (has_key w)); [done|].
  destruct (streamlit_app.reset_clicked w); [by intros hs Hs|]. cbv zeta.
  destruct (truthy (streamlit_app.chat_input w)).
  - pose proof (exchange_store llm (chat_of w b) (current_id w b)
                  (default EmptyString (streamlit_app.chat_input w)) (state_of b)) as Hst.
    pose proof (opened_dom (state_of b) (current_id w b)) as Hod.
    rewrite <- Hst in Hod. clear Hst.
    destruct (handle_question _ _ _ _ _) as [[response|e] st]; cbn [snd] in Hod |- *;
      intros hs Hs; injection Hs as <-; exists (current_id w b);
      (split; [done|]); rewrite Hod; cbn [state_of store];
      apply union_subseteq; (split; [done | exact Hdom]).
  - intros hs Hs. injection Hs as <-. by exists (current_id w b).
Qed.

Lemma reruns_invariant (llm : client) (ws : list streamlit_app.widgets)
    (b : streamlit_app.browser) :
  own_key_only b /\ browser_wf b ->
  own_key_only (reruns llm ws b) /\ browser_wf (reruns llm ws b).
Proof.
  revert b. induction ws as [|w rest IH]; intros b [Hown Hwf]; [done|].
  cbn [reruns]. apply IH. split; [by apply own_key_only_main | by apply main_wf].
Qed.

(** X11. However a browser session goes on (questions, answers, failures,
    resets, runs without a key), its dictionary never has a key other than
    the session's own id, and its addresses stay well-formed. *)
Theorem browser_own_key_only (llm : client) (ws : list streamlit_app.widgets) :
  own_key_only (reruns llm ws streamlit_app.initial) /\
  browser_wf (reruns llm ws streamlit_app.initial).
Proof.
  apply reruns_invariant. split; [|apply browser_wf_initial].
  intros hs Hs. discriminate Hs.
Qed.

Lemma session_id_main (llm : client) (w : streamlit_app.widgets)
    (b : streamlit_app.browser) (sid : string) :
  streamlit_app.session_id (streamlit_app.session b) = Some sid ->
  has_key w && streamlit_app.reset_clicked w = false ->
  streamlit_app.session_id (streamlit_app.session (streamlit_app.main llm w b).2) = Some sid.
Proof.
  intros Hsid Hw. rewrite main_eq. unfold current_id. rewrite Hsid. cbn [default].
  destruct (has_key w); cbn [negb]; [|done].
  cbn [andb] in Hw. rewrite Hw. cbv zeta.
  destruct (truthy (streamlit_app.chat_input w)); [|done].
  by destruct (handle_question _ _ _ _ _) as [[response|e] st].
Qed.

(** X12. The session id is assigned once: the first run that gets past
    the key test stores the fresh identifier, and from then on every run
    keeps the stored one, whatever identifier [uuid4] would produce, until
    a run with a key has the reset button pressed. *)
Theorem session_id_kept (llm : client) (ws : list streamlit_app.widgets)
    (b : streamlit_app.browser) (sid : string) :
  streamlit_app.session_id (streamlit_app.session b) = Some sid ->
  Forall (fun w => has_key w && streamlit_app.reset_clicked w = false) ws ->
  streamlit_app.session_id (streamlit_app.session (reruns llm ws b)) = Some sid.
Proof.
  revert b. induction ws as [|w rest IH]; intros b Hsid Hws; [done|].
  apply Forall_cons in Hws as [Hw Hrest]. cbn [reruns].
  apply IH; [|done]. by apply session_id_main.
Qed.

Lemma reruns_app (llm : client) (ws1 ws2 : list streamlit_app.widgets)
    (b : streamlit_app.browser) :
  reruns llm (ws1 ++ ws2) b = reruns llm ws2 (reruns llm ws1 b).
Proof.
  revert b. induction ws1 as [|w rest IH]; intros b; [done|].
  cbn [app reruns]. apply IH.
Qed.

(** Runs without input change neither the history objects, the requests nor
    the dictionary; the first of them fixes the session id when none is
    stored. *)
Lemma quiet_runs (llm : client) (ws : list streamlit_app.widgets)
    (b : streamlit_app.browser) :
  Forall quiet ws ->
  streamlit_app.objects (reruns llm ws b) = streamlit_app.objects b /\
  streamlit_app.requests (reruns llm ws b) = streamlit_app.requests b /\
  default ∅ (streamlit_app.history_store (streamlit_app.session (reruns llm ws b))) =
    default ∅ (streamlit_app.history_store (streamlit_app.session b)) /\
  streamlit_app.session_id (streamlit_app.session (reruns llm ws b)) =
    match ws with
    | [] => streamlit_app.session_id (streamlit_app.session b)
    | w :: _ => Some (current_id w b)
    end.
Proof.
  revert b. induction ws as [|w rest IH]; intros b Hws; [done|].
  apply Forall_cons in Hws as [(Hkey & Hreset & Hinput) Hrest].
  cbn [reruns]. rewrite (main_skips llm w b Hkey Hreset Hinput). cbn [snd].
  match goal with
  | |- context [reruns llm rest ?b2] => destruct (IH b2 Hrest) as (H1 & H2 & H3 & H4)
  end.
  rewrite H1, H2, H3, H4. repeat split; try done.
  by destruct rest.
Qed.

(** The first question of a session without recorded turns. *)
Lemma first_question_of_session (llm : client) (w : streamlit_app.widgets)
    (b : streamlit_app.browser) (question : string) :
  default ∅ (streamlit_app.history_store (streamlit_app.session b)) = ∅ ->
  has_key w = true ->
  streamlit_app.reset_clicked w = false ->
  streamlit_app.chat_input w = Some question ->
  question <> EmptyString ->
  exists c : call,
    streamlit_app.requests (streamlit_app.main llm w b).2 =
      streamlit_app.requests b ++ [c] /\
    call_messages c =
      [Message system langchain_app.system_template; Message human question] /\
    streamlit_app.session_id (streamlit_app.session (streamlit_app.main llm w b).2) =
      Some (current_id w b) /\
    forall s : string,
      s <> current_id w b -> streamlit_app.history_of (streamlit_app.main llm w b).2 s = [].
Proof.
  intros Hempty Hkey Hreset Hinput Hne.
  assert (truthy (streamlit_app.chat_input w) = true) as Ht
    by (rewrite Hinput; by destruct question).
  rewrite main_eq. rewrite Hkey, Hreset, Ht, Hinput. cbn [negb default]. cbv zeta.
  pose proof (exchange_calls llm (chat_of w b) (current_id w b) question (state_of b)) as Hc.
  pose proof (exchange_store llm (chat_of w b) (current_id w b) question (state_of b)) as Hs.
  assert (store (opened (state_of b) (current_id w b)).2 =
          {[ current_id w b := length (streamlit_app.objects b) ]}) as Ho.
  { unfold opened, state_of. cbn [store heap]. rewrite Hempty.
    rewrite lookup_empty. cbn [snd store]. by rewrite insert_empty. }
  rewrite Ho in Hs.
  assert (call_messages (request_of (chat_of w b) (state_of b) (current_id w b) question) =
          [Message system langchain_app.system_template; Message human question]) as Hm.
  { unfold request_of, history_of, state_of. cbn [call_messages store].
    by rewrite Hempty, lookup_empty. }
  exists (request_of (chat_of w b) (state_of b) (current_id w b) question).
  destruct (handle_question _ _ _ _ _) as [[response|e] st]; cbn [snd] in Hc, Hs |- *;
    cbn [streamlit_app.requests streamlit_app.session streamlit_app.session_id];
    (split; [exact Hc|]); (split; [exact Hm|]); (split; [done|]);
    intros s Hs'; unfold streamlit_app.history_of;
    cbn [streamlit_app.session streamlit_app.history_store from_option id];
    rewrite Hs; by rewrite lookup_singleton_ne.
Qed.

(** X13. After "Reset chat" the conversation starts over.  The run that
    sees the button pressed sends nothing, even when a question was typed,
    and clears the session state.  Whether or not runs without input follow
    it (the one [st.experimental_rerun] asks for, where it exists, and any
    others), the next question is asked with no earlier turn replayed, under
    the session id drawn by the first run after the reset, and no other id
    has a recorded turn. *)
Theorem reset_starts_over (llm : client) (w1 w2 : streamlit_app.widgets)
    (autos : list streamlit_app.widgets) (b : streamlit_app.browser) (question : string) :
  has_key w1 = true ->
  streamlit_app.reset_clicked w1 = true ->
  Forall quiet autos ->
  has_key w2 = true ->
  streamlit_app.reset_clicked w2 = false ->
  streamlit_app.chat_input w2 = Some question ->
  question <> EmptyString ->
  streamlit_app.requests (streamlit_app.main llm w1 b).2 = streamlit_app.requests b /\
  streamlit_app.session (streamlit_app.main llm w1 b).2 =
    streamlit_app.Session None None None /\
  exists c : call,
    streamlit_app.requests (reruns llm (w1 :: autos ++ [w2]) b) =
      streamlit_app.requests b ++ [c] /\
    call_messages c =
      [Message system langchain_app.system_template; Message human question] /\
    streamlit_app.session_id
      (streamlit_app.session (reruns llm (w1 :: autos ++ [w2]) b)) =
      Some (streamlit_app.uuid4 (hd w2 autos)) /\
    forall s : string,
      s <> streamlit_app.uuid4 (hd w2 autos) ->
      streamlit_app.history_of (reruns llm (w1 :: autos ++ [w2]) b) s = [].
Proof.
  intros Hk1 Hr1 Hautos Hk2 Hr2 Hq2 Hne.
  assert (streamlit_app.main llm w1 b =
    (Ok streamlit_app.Rerun,
     streamlit_app.Browser (streamlit_app.Session None None None)
       (streamlit_app.objects b) (streamlit_app.requests b))) as H1.
  { rewrite main_eq. by rewrite Hk1, Hr1. }
  cbn [reruns]. rewrite H1. cbn [snd streamlit_app.requests streamlit_app.session].
  split; [done|]. split; [done|].
  set (b1 := streamlit_app.Browser (streamlit_app.Session None None None)
               (streamlit_app.objects b) (streamlit_app.requests b)).
  rewrite reruns_app. cbn [reruns].
  destruct (quiet_runs llm autos b1 Hautos) as (Hobj & Hreq & Hstore & Hsid).
  assert (current_id w2 (reruns llm autos b1) = streamlit_app.uuid4 (hd w2 autos)) as Hid.
  { unfold current_id. rewrite Hsid. by destruct autos. }
  destruct (first_question_of_session llm w2 (reruns llm autos b1) question
              Hstore Hk2 Hr2 Hq2 Hne) as (c & Hc & Hm & Hs & Hh).
  rewrite Hid in Hs, Hh. rewrite Hreq in Hc.
  exists c. done.
Qed.

(** ** The displayed messages and the recorded turns *)

Lemma browser_history (sid0 : option string) (hs : gmap string nat)
    (shown : option (list streamlit_app.entry)) (st : state) (s : string) :
  streamlit_app.history_of
    (streamlit_app.Browser (streamlit_app.Session sid0 (Some (store st)) shown)
       (heap st) (calls st)) s = history_of st s.
Proof. reflexivity. Qed.

Lemma state_of_history (b : streamlit_app.browser) (s : string) :
  history_of (state_of b) s = streamlit_app.history_of b s.
Proof. reflexivity. Qed.

(** X14. As long as no exchange fails, what the page shows is what the
    model is told: if the displayed messages are the recorded turns of the
    session (the user's as "user", the assistant's as "assistant") before a
    run that does not raise, they are so after it, whether the run answered
    a question, had none, cleared the session or stopped for want of a
    key. *)
Theorem display_follows_history (llm : client) (w : streamlit_app.widgets)
    (b : streamlit_app.browser) (o : streamlit_app.outcome) :
  browser_wf b ->
  synced b ->
  (streamlit_app.main llm w b).1 = Ok o ->
  synced (streamlit_app.main llm w b).2.
Proof.
  intros Hwf Hsync Hok. rewrite main_eq in Hok |- *.
  destruct (negb (has_key w)); [done|].
  destruct (streamlit_app.reset_clicked w); [by intros u|]. cbv zeta in Hok |- *.
  pose proof (Hsync (streamlit_app.uuid4 w)) as Hshown.
  fold (current_id w b) in Hshown.
  destruct (truthy (streamlit_app.chat_input w)).
  - destruct (handle_question llm (chat_of w b) (current_id w b)
                (default EmptyString (streamlit_app.chat_input w)) (state_of b))
      as [[response|e] st] eqn:Hrun; [|discriminate Hok].
    destruct (exchange_returned llm (chat_of w b) (current_id w b) _ (state_of b)
                st response Hwf Hrun) as [Hrole Hh].
    intros u. cbn [snd streamlit_app.session streamlit_app.session_id
                   streamlit_app.messages from_option id].
    rewrite (browser_history _ (store st)), Hh, state_of_history.
    rewrite fmap_app, <- Hshown, <- app_assoc. cbn [fmap list_fmap app].
    unfold to_entry at 1 2. rewrite Hrole. done.
  - intros u. cbn [snd streamlit_app.session streamlit_app.session_id
                   streamlit_app.messages from_option id].
    rewrite Hshown. reflexivity.
Qed.

(** X15. When the exchange of a run raises, the exception leaves [main]
    and the page gets out of step with the history: the user's question has
    already been added to the displayed messages, but no turn is recorded
    for it, so the next request will not replay it. *)
Theorem failed_question_stays_displayed (llm : client) (w : streamlit_app.widgets)
    (b : streamlit_app.browser) (e : exn) :
  synced b ->
  (streamlit_app.main llm w b).1 = Raise e ->
  llm (streamlit_app.requests b)
    (request_of (chat_of w b) (state_of b) (current_id w b)
       (default EmptyString (streamlit_app.chat_input w))) = inr e /\
  streamlit_app.messages (streamlit_app.session (streamlit_app.main llm w b).2) =
    Some ((to_entry <$>
             streamlit_app.history_of (streamlit_app.main llm w b).2 (current_id w b))
          ++ [streamlit_app.Entry "user"
                (default EmptyString (streamlit_app.chat_input w))]) /\
  forall s : string,
    streamlit_app.history_of (streamlit_app.main llm w b).2 s =
      streamlit_app.history_of b s.
Proof.
  intros Hsync Hraise. rewrite main_eq in Hraise |- *.
  destruct (negb (has_key w)); [discriminate Hraise|].
  destruct (streamlit_app.reset_clicked w); [discriminate Hraise|].
  cbv zeta in Hraise |- *.
  pose proof (Hsync (streamlit_app.uuid4 w)) as Hshown.
  fold (current_id w b) in Hshown.
  destruct (truthy (streamlit_app.chat_input w)); [|discriminate Hraise].
  destruct (handle_question llm (chat_of w b) (current_id w b)
              (default EmptyString (streamlit_app.chat_input w)) (state_of b))
    as [[response|e'] st] eqn:Hrun; [discriminate Hraise|].
  injection Hraise as ->.
  destruct (exchange_raising llm _ _ _ _ _ _ Hrun) as [Hllm Hh].
  split; [exact Hllm|].
  cbn [snd streamlit_app.session streamlit_app.messages].
  split.
  - rewrite (browser_history _ (store st)), Hh, state_of_history. by rewrite Hshown.
  - intros s. rewrite (browser_history _ (store st)), Hh. apply state_of_history.
Qed.

(** ** The further theorems at concrete inputs *)


Lemma exchange_keeps_pairs_witness :
  alternating
    (history_of
       (handle_question (answering akbar_reply) CommandLine "s1" "And his son?"
          first_question.2).2 "s1") = true /\
  Nat.even
    (length
       (history_of
          (handle_question (answering akbar_reply) CommandLine "s1" "And his son?"
             first_question.2).2 "s1")) = true.
Proof.
  apply (exchange_keeps_pairs (answering akbar_reply) CommandLine "s1" "And his son?"
           first_question.2 "s1").
  - by_evaluation.
  - reflexivity.
Defined.

Lemma session_id_kept_witness :
  streamlit_app.session_id
    (streamlit_app.session
       (reruns (answering akbar_reply) [ask_ashoka; no_question] asked_once)) = Some "u1".
Proof.
  apply (session_id_kept (answering akbar_reply) [ask_ashoka; no_question] asked_once "u1").
  - reflexivity.
  - repeat constructor.
Defined.

Lemma reset_starts_over_witness :
  streamlit_app.requests (streamlit_app.main (answering akbar_reply) press_reset asked_once).2 =
    streamlit_app.requests asked_once /\
  streamlit_app.session (streamlit_app.main (answering akbar_reply) press_reset asked_once).2 =
    streamlit_app.Session None None None /\
  exists c : call,
    streamlit_app.requests
      (reruns (answering akbar_reply) (press_reset :: [rerun_after_reset] ++ [ask_ashoka])
         asked_once) =
      streamlit_app.requests asked_once ++ [c] /\
    call_messages c =
      [Message system langchain_app.system_template; Message human "Who was Ashoka?"] /\
    streamlit_app.session_id
      (streamlit_app.session
         (reruns (answering akbar_reply) (press_reset :: [rerun_after_reset] ++ [ask_ashoka])
            asked_once)) =
      Some (streamlit_app.uuid4 (hd ask_ashoka [rerun_after_reset])) /\
    forall s : string,
      s <> streamlit_app.uuid4 (hd ask_ashoka [rerun_after_reset]) ->
      streamlit_app.history_of
        (reruns (answering akbar_reply) (press_reset :: [rerun_after_reset] ++ [ask_ashoka])
           asked_once) s = [].
Proof.
  apply (reset_starts_over (answering akbar_reply) press_reset ask_ashoka
           [rerun_after_reset] asked_once "Who was Ashoka?").
  - reflexivity.
  - reflexivity.
  - repeat constructor.
  - reflexivity.
  - reflexivity.
  - reflexivity.
  - discriminate.
Defined.

Lemma display_follows_history_witness :
  synced (streamlit_app.main (answering akbar_reply) ask_ashoka asked_once).2.
Proof.
  apply (display_follows_history (answering akbar_reply) ask_ashoka asked_once
           streamlit_app.Done).
  - unfold browser_wf. by_evaluation.
  - intros u. reflexivity.
  - reflexivity.
Defined.

Lemma failed_question_stays_displayed_witness :
  failing quota_exceeded (streamlit_app.requests asked_once)
    (request_of (chat_of ask_ashoka asked_once) (state_of asked_once)
       (current_id ask_ashoka asked_once)
       (default EmptyString (streamlit_app.chat_input ask_ashoka))) = inr quota_exceeded /\
  streamlit_app.messages
    (streamlit_app.session
       (streamlit_app.main (failing quota_exceeded) ask_ashoka asked_once).2) =
    Some ((to_entry <$>
             streamlit_app.history_of
               (streamlit_app.main (failing quota_exceeded) ask_ashoka asked_once).2
               (current_id ask_ashoka asked_once))
          ++ [streamlit_app.Entry "user"
                (default EmptyString (streamlit_app.chat_input ask_ashoka))]) /\
  forall s : string,
    streamlit_app.history_of
      (streamlit_app.main (failing quota_exceeded) ask_ashoka asked_once).2 s =
      streamlit_app.history_of asked_once s.
Proof.
  apply (failed_question_stays_displayed (failing quota_exceeded) ask_ashoka asked_once
           quota_exceeded).
  - intros u. reflexivity.
  - reflexivity.
Defined.

(** A browser session in four runs: a question, a failed question, a reset
    and a question again. *)
Example browser_session :
  streamlit_app.messages
    (streamlit_app.session (reruns (answering akbar_reply) [ask_akbar] streamlit_app.initial)) =
    Some [streamlit_app.Entry "user" "Who was Akbar?";
          streamlit_app.Entry "assistant" akbar_reply] /\
  streamlit_app.history_of
    (reruns (answering akbar_reply) [ask_akbar; press_reset; ask_ashoka] streamlit_app.initial)
    "u3" = [Message human "Who was Ashoka?"; Message ai akbar_reply] /\
  streamlit_app.history_of
    (reruns (answering akbar_reply) [ask_akbar; press_reset; ask_ashoka] streamlit_app.initial)
    "u1" = [].
Proof. vm_compute. done. Qed.

(** ** The temperature slider and the history objects *)

Lemma main_sends_with (llm : client) (w : streamlit_app.widgets) (b : streamlit_app.browser)
    (P : call -> Prop) :
  (forall (sid question : string) (st : state),
     P (request_of (chat_of w b) st sid question)) ->
  sends P (streamlit_app.requests b) (streamlit_app.requests (streamlit_app.main llm w b).2).
Proof.
  intros HP. rewrite main_eq.
  destruct (negb (has_key w)); [apply sends_refl|].
  destruct (streamlit_app.reset_clicked w); [apply sends_refl|]. cbv zeta.
  destruct (truthy (streamlit_app.chat_input w)); [|apply sends_refl].
  pose proof (exchange_calls llm (chat_of w b) (current_id w b)
                (default EmptyString (streamlit_app.chat_input w)) (state_of b)) as Hc.
  destruct (handle_question _ _ _ _ _) as [[response|e] st]; cbn in Hc |- *;
    rewrite Hc; apply sends_one; apply HP.
Qed.

(** X16. In the browser the temperature cannot be set below 0.7: the 0.7
    handed to the slider is its minimum, so every request carries a
    temperature between 0.7 and 1 and the model name "gemini-1.5-flash";
    thirty steps of the thumb or more give 1. *)
Theorem browser_temperature_floor (llm : client) (w : streamlit_app.widgets)
    (b : streamlit_app.browser) (n : nat) :
  sends (fun c =>
           (7 # 10 <= call_temperature c)%Q /\ (call_temperature c <= 1)%Q /\
           call_model_name c = "gemini-1.5-flash")
        (streamlit_app.requests b)
        (streamlit_app.requests (streamlit_app.main llm w b).2) /\
  (streamlit_app.slider (7 # 10) (30 + n) == 1)%Q.
Proof.
  split.
  - apply main_sends_with. intros sid question st.
    unfold request_of, chat_of. cbn.
    pose proof (slider_range (streamlit_app.slider_steps w)) as [H1 H2]. done.
  - unfold streamlit_app.slider. cbv zeta.
    pose proof (inject_nat_nonneg n) as Hn.
    rewrite Nat2Z.inj_add, inject_Z_plus.
    destruct (Qle_bool _ _) eqn:Hle; [|reflexivity].
    apply Qle_bool_iff in Hle. apply Qle_antisym; [exact Hle|].
    change (inject_Z (Z.of_nat 30)) with (30 # 1)%Q. lra.
Qed.

(** X17. Two different session ids never get the same history object:
    looking up one and then the other, in either front end, returns two
    different addresses, the first id still maps to its own, and the state
    stays well-formed. *)
Theorem distinct_sessions_distinct_objects (s1 s2 : string) (st st1 st2 : state)
    (r1 r2 : nat) :
  wf st ->
  s1 <> s2 ->
  get_session_history s1 st = (Ok r1, st1) ->
  _get_session_history s2 st1 = (Ok r2, st2) ->
  r1 <> r2 /\ store st2 !! s1 = Some r1 /\ store st2 !! s2 = Some r2 /\ wf st2.
Proof.
  intros Hwf Hne H1 H2.
  rewrite get_session_history_opened in H1. injection H1 as <- <-.
  rewrite _get_session_history_eq, get_session_history_opened in H2.
  injection H2 as <- <-.
  pose proof (opened_wf st s1 Hwf) as Hwf1.
  pose proof (opened_wf _ s2 Hwf1) as Hwf2.
  pose proof (opened_store st s1) as Hs1.
  pose proof (opened_store (opened st s1).2 s2) as Hs2.
  assert (store (opened (opened st s1).2 s2).2 !! s1 = Some (opened st s1).1) as Hs1'.
  { unfold opened at 1. destruct (store (opened st s1).2 !! s2); simpl; [done|].
    by rewrite lookup_insert_ne. }
  split; [|done].
  intros Heq. apply Hne.
  apply (wf_inj _ s1 s2 (opened st s1).1 Hwf2 Hs1'). by rewrite Heq.
Qed.

Lemma distinct_sessions_distinct_objects_witness :
  0 <> 1 /\
  store (_get_session_history "s2" first_question.2).2 !! "s1" = Some 0 /\
  store (_get_session_history "s2" first_question.2).2 !! "s2" = Some 1 /\
  wf (_get_session_history "s2" first_question.2).2.
Proof.
  apply (distinct_sessions_distinct_objects "s1" "s2" first_question.2 first_question.2
           (_get_session_history "s2" first_question.2).2 0 1).
  - by_evaluation.
  - discriminate.
  - vm_compute. reflexivity.
  - vm_compute. reflexivity.
Defined.
